(** * Realized-Volatility-Prediction: the loader and the visualiser

    A shallow embedding of [load_data.py] (class [DataLoader]) and of
    [visualize_data.py] (the plot functions and the synthesis report).

    Python objects that are shared and mutated (the pandas DataFrames handed
    from the loader to the visualiser) live in a heap and are passed by
    location; [None] is the [None] of [option].  Console output and drawing
    calls are recorded, in order, in an event log.  Exceptions are an outcome
    of the [Py] monad.  Numeric cells are exact rationals, with [None] for a
    missing value (NaN). *)

From Stdlib Require Import QArith Qabs Ascii String.
From stdpp Require Import gmap strings list fin_maps pretty.

Set Warnings "-clear-no-such-hyp".

Open Scope list_scope.
Open Scope Z_scope.

(** ** Cells and series *)

Abbreviation Cell := (option Q).
Abbreviation Series := (list (option Q)).

Definition dropna (s : Series) : list Q := omap id s.

(** Element-wise [a - b] of two series over the same index. *)
Definition cell_sub (a b : Cell) : Cell :=
  match a, b with
  | Some x, Some y => Some (Qred (x - y))
  | _, _ => None
  end.

Definition series_sub (a b : Series) : Series := zip_with cell_sub a b.

Definition series_eqb (v : Cell) (s : Series) : list bool :=
  map (fun c => match c, v with
                | Some x, Some y => Qeq_bool x y
                | _, _ => false
                end) s.

Definition qsum (l : list Q) : Q := foldr Qplus (0#1)%Q l.

(** [Series.count()], [Series.sum()], [Series.mean()], all skipping NaN. *)
Definition series_count (s : Series) : nat := length (dropna s).

Definition series_sum (s : Series) : Cell := Some (Qred (qsum (dropna s))).

Definition series_mean (s : Series) : Cell :=
  match dropna s with
  | [] => None
  | x :: l => Some (Qred (qsum (x :: l) / inject_Z (Z.of_nat (length (x :: l)))))
  end.

Fixpoint qmax_list (m : Q) (l : list Q) : Q :=
  match l with
  | [] => m
  | x :: l' => qmax_list (if Qle_bool m x then x else m) l'
  end.

Fixpoint qmin_list (m : Q) (l : list Q) : Q :=
  match l with
  | [] => m
  | x :: l' => qmin_list (if Qle_bool x m then x else m) l'
  end.

Definition series_max (s : Series) : Cell :=
  match dropna s with [] => None | x :: l => Some (qmax_list x l) end.

Definition series_min (s : Series) : Cell :=
  match dropna s with [] => None | x :: l => Some (qmin_list x l) end.

(** Distinct values, in order of first appearance ([Series.unique()] without
    the NaN entry); [nunique] is their number. *)
Definition qmem (x : Q) (l : list Q) : bool := existsb (Qeq_bool x) l.

Definition distinct (l : list Q) : list Q :=
  foldl (fun seen x => if qmem x seen then seen else seen ++ [x]) [] l.

Definition series_nunique (s : Series) : nat := length (distinct (dropna s)).

(** Median: the middle of the sorted values, or the mean of the two middle
    ones. *)
Fixpoint qinsert (x : Q) (l : list Q) : list Q :=
  match l with
  | [] => [x]
  | y :: l' => if Qle_bool x y then x :: y :: l' else y :: qinsert x l'
  end.

Definition qsort (l : list Q) : list Q := foldr qinsert [] l.

Definition series_median (s : Series) : Cell :=
  let v := qsort (dropna s) in
  let n := length v in
  if Nat.even n then
    match v !! (n / 2 - 1)%nat, v !! (n / 2)%nat with
    | Some a, Some b => Some (Qred ((a + b) / (2#1)))
    | _, _ => None
    end
  else v !! (n / 2)%nat.

(** ** Formatting, as Python's format mini-language does it *)

Fixpoint replicate_string (n : nat) (s : string) : string :=
  match n with
  | O => String.EmptyString
  | S n' => s +:+ replicate_string n' s
  end.

(** [f"{s:12}"]: left-justified in a field of the given width. *)
Definition ljust (width : nat) (s : string) : string :=
  s +:+ replicate_string (width - String.length s) " ".

(** [f"{s:0>w}"] on a digit string. *)
Definition zfill (width : nat) (s : string) : string :=
  replicate_string (width - String.length s) "0" +:+ s.

Fixpoint group3 (k : nat) (l : list ascii) : list ascii :=
  match l with
  | [] => []
  | c :: l' =>
      match k with
      | O => ","%char :: c :: group3 2 l'
      | S k' => c :: group3 k' l'
      end
  end.

(** [f"{n:,}"] for a Python int. *)
Definition format_comma (n : nat) : string :=
  string_of_list_ascii
    (rev (group3 3 (rev (list_ascii_of_string (pretty n))))).

Definition round_half_even (q : Q) : Z :=
  let n := Qnum q in
  let d := Z.pos (Qden q) in
  let fl := n / d in
  let r := n mod d in
  if 2 * r <? d then fl
  else if d <? 2 * r then fl + 1
  else if Z.even fl then fl else fl + 1.

(** [f"{x:.Nf}"]: fixed point with [N] decimals, NaN printed as [nan]. *)
Definition format_f (digits : nat) (c : Cell) : string :=
  match c with
  | None => "nan"
  | Some q =>
      let p := 10 ^ Z.of_nat digits in
      let scaled := round_half_even (Qabs q * inject_Z p) in
      (if Qle_bool 0 q then String.EmptyString else "-")
      +:+ pretty (scaled / p)
      +:+ match digits with
          | O => String.EmptyString
          | S _ => "." +:+ zfill digits (pretty (scaled mod p))
          end
  end.

(** [str(t)] of a pair of ints, as in [df.shape]. *)
Definition str_shape (r c : nat) : string :=
  "(" +:+ pretty r +:+ ", " +:+ pretty c +:+ ")".

(** ** DataFrames *)

Record DataFrame := mkDF {
  df_len : nat;                      (* length of the index: [len(df)] *)
  cols : list (string * Series)      (* the columns, in order *)
}.

Definition columns (df : DataFrame) : list string := (cols df).*1.

(** [name in df.columns] *)
Definition has_col (name : string) (df : DataFrame) : bool :=
  bool_decide (name ∈ columns df).

Fixpoint assoc_get (name : string) (l : list (string * Series)) : option Series :=
  match l with
  | [] => None
  | (k, v) :: l' => if decide (k = name) then Some v else assoc_get name l'
  end.

(** [df[name] = s]: an existing column is replaced in place, a new one is
    appended after the last. *)
Fixpoint assoc_set (name : string) (s : Series) (l : list (string * Series))
  : list (string * Series) :=
  match l with
  | [] => [(name, s)]
  | (k, v) :: l' =>
      if decide (k = name) then (k, s) :: l' else (k, v) :: assoc_set name s l'
  end.

Definition get_col (name : string) (df : DataFrame) : option Series :=
  assoc_get name (cols df).

Definition set_col (name : string) (s : Series) (df : DataFrame) : DataFrame :=
  mkDF (df_len df) (assoc_set name s (cols df)).

(** Python's [seq[:n]]: a negative bound counts from the end. *)
Definition slice_len (len : nat) (n : Z) : nat :=
  if 0 <=? n then Nat.min (Z.to_nat n) len
  else Z.to_nat (Z.of_nat len + n).

(** [df.head(n)] *)
Definition df_head (n : Z) (df : DataFrame) : DataFrame :=
  let k := slice_len (df_len df) n in
  mkDF k (map (fun c => (c.1, take k c.2)) (cols df)).

Fixpoint mask_filter {A} (m : list bool) (l : list A) : list A :=
  match m, l with
  | b :: m', x :: l' => if b then x :: mask_filter m' l' else mask_filter m' l'
  | _, _ => []
  end.

(** [df[mask]] for a boolean series over the same index. *)
Definition df_where (m : list bool) (df : DataFrame) : DataFrame :=
  mkDF (length (filter (fun b => b = true) (take (df_len df) m)))
       (map (fun c => (c.1, mask_filter m c.2)) (cols df)).

(** [df[names]]: the sub-frame of the named columns. *)
Definition df_select (names : list string) (df : DataFrame) : DataFrame :=
  mkDF (df_len df) (omap (fun n => pair n <$> get_col n df) names).

(** The [i]-th row, as the cells of the columns in order. *)
Definition df_row (i : nat) (df : DataFrame) : list (option Cell) :=
  map (fun c => c.2 !! i) (cols df).

(** Every column spans the whole index and no name occurs twice. *)
Definition df_wf (df : DataFrame) : Prop :=
  Forall (fun c => length c.2 = df_len df) (cols df) ∧ NoDup (columns df).

(** ** Files on disk *)

Abbreviation Path := string.

(** The handle returned by [pq.ParquetFile]: the metadata the code reads. *)
Record ParquetFile := mkParquetFile {
  num_row_groups : nat;
  schema : string;
  pandas_metadata : bool             (* truthiness of schema_arrow.pandas_metadata *)
}.

(** An existing file is described by what each library reader does on it:
    it raises (with a message) or it yields a value. *)
Record File := mkFile {
  parquet_meta : string + ParquetFile;   (* pq.ParquetFile(path) *)
  parquet_data : string + DataFrame;     (* pd.read_parquet(path, engine='pyarrow') *)
  csv_data : string + DataFrame          (* pd.read_csv(path) *)
}.

(** ** Exceptions, events and the world *)

Abbreviation loc := nat.

Inductive Exn :=
| ValueError (msg : string)
| KeyError (key : string)
| IndexError (msg : string)
| UnboundLocalError (var : string)
| LibraryError (msg : string)    (* raised inside pyarrow or pandas while reading *)
| DanglingRef (l : loc).         (* a location outside the heap: not a Python
                                    exception, no loaded table produces it *)

(** [str(e)] *)
Definition str_exn (e : Exn) : string :=
  match e with
  | ValueError m | IndexError m | LibraryError m => m
  | KeyError k => "'" +:+ k +:+ "'"
  | UnboundLocalError v =>
      "cannot access local variable '" +:+ v
      +:+ "' where it is not associated with a value"
  | DanglingRef _ => String.EmptyString
  end.

(** A panel of the grid returned by [plt.subplots], [axes[r,c]]. *)
Inductive Panel := Ax (r c : nat).

Inductive Event :=
| Print (s : string)                                   (* print(s) *)
| Subplots (r c : nat)                                 (* plt.subplots(r, c, ...) *)
| Suptitle (s : string)                                (* fig.suptitle *)
| Hist (ax : Panel) (data : Series) (bins : nat)       (* ax.hist *)
| Line (ax : Panel) (xs ys : Series) (label : string)  (* ax.plot *)
| Scatter (ax : Panel) (xs ys : Series) (sizes : option Series)  (* ax.scatter *)
| Boxplot (ax : Panel) (data : DataFrame) (x y : string)         (* sns.boxplot *)
| Heatmap (ax : Panel) (corr_of : DataFrame)           (* sns.heatmap(df.corr()) *)
| TextBox (ax : Panel) (s : string)                    (* ax.text *)
| SetTitle (ax : Panel) (s : string)                   (* ax.set_title *)
| Show.                                                (* plt.show() *)

Definition is_print (e : Event) : bool :=
  match e with Print _ => true | _ => false end.

(** The console notices of a log, and its drawing calls. *)
Definition notices (l : list Event) : list Event := filter (fun e => is_print e = true) l.
Definition renderings (l : list Event) : list Event := filter (fun e => is_print e = false) l.

Record World := mkWorld {
  disk : gmap Path File;           (* the files that exist *)
  heap : gmap loc DataFrame;       (* the DataFrame objects *)
  out : list Event                 (* console and figure output, oldest first *)
}.

Inductive Outcome (A : Type) :=
| Return (a : A)
| Raise (e : Exn).
Arguments Return {A} a.
Arguments Raise {A} e.

(** ** The monad of Python statements *)

Definition Py (A : Type) : Type := World -> Outcome A * World.

Definition ret {A} (a : A) : Py A := fun w => (Return a, w).

Definition bind {A B} (m : Py A) (k : A -> Py B) : Py B :=
  fun w =>
    match m w with
    | (Return a, w') => k a w'
    | (Raise e, w') => (Raise e, w')
    end.

Definition raise {A} (e : Exn) : Py A := fun w => (Raise e, w).

(** [try: body except Exception as e: handler] *)
Definition try_except {A} (body : Py A) (handler : Exn -> Py A) : Py A :=
  fun w =>
    match body w with
    | (Return a, w') => (Return a, w')
    | (Raise e, w') => handler e w'
    end.

Declare Scope py_scope.
Delimit Scope py_scope with py.
Bind Scope py_scope with Py.

Notation "x <- m ;; k" := (bind m (fun x => k))
  (at level 100, m at next level, right associativity) : py_scope.
Notation "m ;; k" := (bind m (fun _ => k))
  (at level 100, right associativity) : py_scope.

Local Open Scope py_scope.

Definition emit (e : Event) : Py unit :=
  fun w => (Return tt, mkWorld (disk w) (heap w) (out w ++ [e])).

Definition print (s : string) : Py unit := emit (Print s).

(** [when c: body] *)
Definition when (c : bool) (body : Py unit) : Py unit :=
  if c then body else ret tt.

(** [for x in l: acc = body(acc, x)] *)
Fixpoint for_each {A S} (l : list A) (body : S -> A -> Py S) (acc : S) : Py S :=
  match l with
  | [] => ret acc
  | x :: l' => acc' <- body acc x ;; for_each l' body acc'
  end.

(** [path.exists()] *)
Definition path_exists (p : Path) : Py bool :=
  fun w => (Return (bool_decide (is_Some (disk w !! p))), w).

Definition read_with {A} (reader : File -> string + A) (p : Path) : Py A :=
  fun w =>
    match disk w !! p with
    | None => (Raise (LibraryError ("No such file or directory: " +:+ p)), w)
    | Some f =>
        match reader f with
        | inl msg => (Raise (LibraryError msg), w)
        | inr a => (Return a, w)
        end
    end.

(** A new DataFrame object: a location the heap does not hold yet. *)
Definition new_frame (df : DataFrame) : Py loc :=
  fun w =>
    let l := fresh (dom (heap w)) in
    (Return l, mkWorld (disk w) (<[l := df]> (heap w)) (out w)).

Definition deref (l : loc) : Py DataFrame :=
  fun w =>
    match heap w !! l with
    | Some df => (Return df, w)
    | None => (Raise (DanglingRef l), w)
    end.

(** In-place update of the object at [l]. *)
Definition update (l : loc) (f : DataFrame -> DataFrame) : Py unit :=
  fun w =>
    match heap w !! l with
    | Some df => (Return tt, mkWorld (disk w) (<[l := f df]> (heap w)) (out w))
    | None => (Raise (DanglingRef l), w)
    end.

(** [df[name]]: [KeyError] when there is no such column. *)
Definition column (df : DataFrame) (name : string) : Py Series :=
  match get_col name df with
  | Some s => ret s
  | None => raise (KeyError name)
  end.

Definition getitem (l : loc) (name : string) : Py Series :=
  df <- deref l ;;
  column df name.

(** [s.iloc[0]] *)
Definition iloc0 (s : Series) : Py Cell :=
  match s with
  | c :: _ => ret c
  | [] => raise (IndexError "single positional indexer is out-of-bounds")
  end.

(** [df[name] = s] *)
Definition setitem (l : loc) (name : string) (s : Series) : Py unit :=
  update l (set_col name s).

(** ** Library renderings

    What pandas and numpy compute or print and the repository only calls:
    taken as given. *)

Record PyLib := mkPyLib {
  str_scalar : Cell -> string;           (* str(x) of a numpy scalar *)
  comma_scalar : Cell -> string;         (* f"{x:,}" of a numpy scalar *)
  repr_names : list string -> string;    (* str(list(df.columns)) *)
  repr_sorted_unique : Series -> string; (* str(sorted(s.unique())) *)
  value_counts_index : Series -> list Q; (* s.value_counts().index *)
  repr_dtypes : DataFrame -> string;     (* str(df.dtypes) *)
  repr_frame : DataFrame -> string;      (* str(df) *)
  repr_counts : list (string * nat) -> string;  (* str of an integer series *)
  repr_describe : DataFrame -> string;   (* str(df.describe()) *)
  log1p : Q -> Q;                        (* np.log1p *)
  series_std : Series -> Cell;           (* Series.std() *)
  series_skew : Series -> Cell;          (* Series.skew() *)
  series_kurtosis : Series -> Cell       (* Series.kurtosis() *)
}.

Definition nl : string := String (ascii_of_nat 10) String.EmptyString.

(** * load_data.py *)

Module Loader.

Record DataLoader := mkDataLoader {
  data_path : Path;
  book_train_path : Path;
  book_test_path : Path;
  trade_train_path : Path;
  trade_test_path : Path;
  train_csv_path : Path;
  test_csv_path : Path
}.

(** [self.data_path / name] *)
Definition path_join (d : Path) (name : string) : Path := d +:+ "/" +:+ name.

(** [path.name]: the last component. *)
Fixpoint path_name_from (acc : string) (p : string) : string :=
  match p with
  | String.EmptyString => acc
  | String c p' =>
      if Ascii.eqb c "/" then path_name_from String.EmptyString p'
      else path_name_from (acc +:+ String c String.EmptyString) p'
  end.

Definition path_name (p : Path) : string := path_name_from String.EmptyString p.

(** [DataLoader.__init__] *)
Definition init (data_path : Path) : DataLoader :=
  mkDataLoader data_path
    (path_join data_path "book_train.parquet")
    (path_join data_path "book_test.parquet")
    (path_join data_path "trade_train.parquet")
    (path_join data_path "trade_test.parquet")
    (path_join data_path "train.csv")
    (path_join data_path "test.csv").

(** The (name, path) pairs [check_files_exist] walks through. *)
Definition configured_paths (self : DataLoader) : list (string * Path) :=
  [ ("book_train", book_train_path self);
    ("book_test", book_test_path self);
    ("trade_train", trade_train_path self);
    ("trade_test", trade_test_path self);
    ("train_csv", train_csv_path self);
    ("test_csv", test_csv_path self) ].

Definition check_files_exist (self : DataLoader) : Py (gmap string bool) :=
  for_each (configured_paths self)
    (fun (files_status : gmap string bool) '(name, path) =>
       e1 <- path_exists path ;;
       let files_status := <[name := e1]> files_status in
       e2 <- path_exists path ;;
       print (ljust 12 name +:+ ": " +:+ (if e2 then "✓" else "✗")
              +:+ " (" +:+ path +:+ ")") ;;
       ret files_status)
    ∅.

(** The local [parquet_file] is bound only when [pq.ParquetFile] returns:
    [None] below is the unbound local, which the final [return] reads. *)
Definition explore_parquet_structure (self : DataLoader) (parquet_path : Path)
  : Py (option ParquetFile) :=
  e <- path_exists parquet_path ;;
  if negb e then
    print ("Fichier non trouvé: " +:+ parquet_path) ;;
    ret None
  else
    print (nl +:+ "=== Structure de " +:+ path_name parquet_path +:+ " ===") ;;
    parquet_file <-
      try_except
        (pf <- read_with parquet_meta parquet_path ;;
         print ("Nombre de row groups: " +:+ pretty (num_row_groups pf)) ;;
         print ("Schema: " +:+ schema pf) ;;
         when (pandas_metadata pf) (print "Métadonnées pandas trouvées") ;;
         ret (Some pf))
        (fun e =>
           print ("Erreur lors de la lecture des métadonnées: " +:+ str_exn e) ;;
           ret None) ;;
    match parquet_file with
    | Some pf => ret (Some pf)
    | None => raise (UnboundLocalError "parquet_file")
    end.

Definition load_sample_data (self : DataLoader)
    (file_type split : string) (nrows : Z) : Py (option loc) :=
  file_path <-
    (if bool_decide (file_type = "book") && bool_decide (split = "train")
     then ret (book_train_path self)
     else if bool_decide (file_type = "book") && bool_decide (split = "test")
     then ret (book_test_path self)
     else if bool_decide (file_type = "trade") && bool_decide (split = "train")
     then ret (trade_train_path self)
     else if bool_decide (file_type = "trade") && bool_decide (split = "test")
     then ret (trade_test_path self)
     else raise (ValueError
       "file_type doit être 'book' ou 'trade', split doit être 'train' ou 'test'")) ;;
  e <- path_exists file_path ;;
  if negb e then
    print ("Fichier non trouvé: " +:+ file_path) ;;
    ret None
  else
    print (nl +:+ "=== Chargement échantillon de " +:+ path_name file_path +:+ " ===") ;;
    try_except
      (df <- read_with parquet_data file_path ;;
       if nrows <? Z.of_nat (df_len df) then
         let df := df_head nrows df in
         print ("Échantillon de " +:+ pretty nrows +:+ " lignes chargé (total: "
                +:+ pretty (df_len df) +:+ " lignes dans le sample)") ;;
         l <- new_frame df ;;
         ret (Some l)
       else
         print ("Toutes les " +:+ pretty (df_len df) +:+ " lignes chargées") ;;
         l <- new_frame df ;;
         ret (Some l))
      (fun e =>
         print ("Erreur lors du chargement: " +:+ str_exn e) ;;
         ret None).

Definition load_train_targets (self : DataLoader) : Py (option loc) :=
  e <- path_exists (train_csv_path self) ;;
  if negb e then
    print ("Fichier train.csv non trouvé: " +:+ train_csv_path self) ;;
    ret None
  else
    print (nl +:+ "=== Chargement des targets d'entraînement ===") ;;
    df <- read_with csv_data (train_csv_path self) ;;
    print ("Shape: " +:+ str_shape (df_len df) (length (cols df))) ;;
    l <- new_frame df ;;
    ret (Some l).

Section Exploration.
Context (L : PyLib).

Definition null_counts (df : DataFrame) : list (string * nat) :=
  map (fun c => (c.1, length (filter (fun x => x = None) c.2))) (cols df).

Definition basic_exploration (self : DataLoader) (df : option loc)
    (data_name : string) : Py unit :=
  match df with
  | None => ret tt
  | Some l =>
      d <- deref l ;;
      print (nl +:+ "=== Exploration basique - " +:+ data_name +:+ " ===") ;;
      print ("Shape: " +:+ str_shape (df_len d) (length (cols d))) ;;
      print ("Colonnes: " +:+ repr_names L (columns d)) ;;
      print "Types de données:" ;;
      print (repr_dtypes L d) ;;
      print (nl +:+ "Premières lignes:") ;;
      print (repr_frame L (df_head 5 d)) ;;
      print (nl +:+ "Valeurs manquantes:") ;;
      print (repr_counts L (null_counts d)) ;;
      print (nl +:+ "Statistiques descriptives:") ;;
      print (repr_describe L d) ;;
      when (has_col "stock_id" d)
        (s <- getitem l "stock_id" ;;
         print (nl +:+ "Nombre de stocks uniques: " +:+ pretty (series_nunique s)) ;;
         print ("Stock IDs: " +:+ repr_sorted_unique L s)) ;;
      when (has_col "time_id" d)
        (s <- getitem l "time_id" ;;
         print ("Nombre de time_id uniques: " +:+ pretty (series_nunique s)) ;;
         print ("Range time_id: " +:+ str_scalar L (series_min s) +:+ " à "
                +:+ str_scalar L (series_max s))) ;;
      when (has_col "seconds_in_bucket" d)
        (s <- getitem l "seconds_in_bucket" ;;
         print ("Range seconds_in_bucket: " +:+ str_scalar L (series_min s)
                +:+ " à " +:+ str_scalar L (series_max s)))
  end.

(** [files_status.get(name)] used as a condition: a missing key is [None],
    which is false. *)
Definition status_get (files_status : gmap string bool) (name : string) : bool :=
  default false (files_status !! name).

(** [DataLoader()]: the default [data_path] is ['./raw_data'], which pathlib
    keeps as [raw_data]. *)
Definition default_loader : DataLoader := init "raw_data".

Definition main : Py (DataLoader * option loc * option loc * option loc) :=
  print ("=== EXPLORATION INITIALE DES DONNÉES OPTIVER ===" +:+ nl) ;;
  (* Initialiser le loader *)
  let loader := default_loader in
  (* 1. Vérifier quels fichiers existent *)
  print "1. Vérification des fichiers disponibles:" ;;
  files_status <- check_files_exist loader ;;
  (* 2. Explorer la structure des fichiers parquet *)
  print (nl +:+ "2. Exploration de la structure des fichiers:") ;;
  (if status_get files_status "book_train"
   then _ <- explore_parquet_structure loader (book_train_path loader) ;; ret tt
   else ret tt) ;;
  (if status_get files_status "trade_train"
   then _ <- explore_parquet_structure loader (trade_train_path loader) ;; ret tt
   else ret tt) ;;
  (* 3. Charger et explorer les données book (échantillon) *)
  print (nl +:+ "3. Exploration des données book:") ;;
  book_sample <- load_sample_data loader "book" "train" 5000 ;;
  when (bool_decide (is_Some book_sample))
    (basic_exploration loader book_sample "Book Train Sample") ;;
  (* 4. Charger et explorer les données trade (échantillon) *)
  print (nl +:+ "4. Exploration des données trade:") ;;
  trade_sample <- load_sample_data loader "trade" "train" 5000 ;;
  when (bool_decide (is_Some trade_sample))
    (basic_exploration loader trade_sample "Trade Train Sample") ;;
  (* 5. Charger et explorer les targets *)
  print (nl +:+ "5. Exploration des targets:") ;;
  targets <- load_train_targets loader ;;
  when (bool_decide (is_Some targets))
    (basic_exploration loader targets "Train Targets") ;;
  print (nl +:+ "=== EXPLORATION TERMINÉE ===") ;;
  ret (loader, book_sample, trade_sample, targets).

End Exploration.

End Loader.

(** * visualize_data.py

    Axis labels, scales, legends, tick parameters and [plt.tight_layout]
    take literal arguments and leave no value behind: they are not logged. *)

Module Visualizer.

Section Plots.
Context (L : PyLib).

Definition plot_target_distribution (targets_df : option loc) : Py unit :=
  absent <-
    match targets_df with
    | None => ret true
    | Some l => d <- deref l ;; ret (negb (has_col "target" d))
    end ;;
  if absent : bool then
    print "Pas de données targets disponibles"
  else
    match targets_df with
    | None => ret tt
    | Some l =>
        emit (Subplots 2 2) ;;
        emit (Suptitle "Distribution des Targets (Volatilité Réalisée)") ;;
        (* Distribution brute *)
        t <- getitem l "target" ;;
        emit (Hist (Ax 0 0) t 50) ;;
        emit (SetTitle (Ax 0 0) "Distribution des targets") ;;
        (* Distribution log *)
        t <- getitem l "target" ;;
        let log_targets := map (fmap (log1p L)) t in
        emit (Hist (Ax 0 1) log_targets 50) ;;
        emit (SetTitle (Ax 0 1) "Distribution log des targets") ;;
        (* Box plot par stock_id (top 10) *)
        s <- getitem l "stock_id" ;;
        let top_stocks := take 10 (value_counts_index L s) in
        d <- deref l ;;
        s <- getitem l "stock_id" ;;
        let top_data :=
          df_where (map (fun c => match c with
                                  | Some x => qmem x top_stocks
                                  | None => false
                                  end) s) d in
        emit (Boxplot (Ax 1 0) top_data "stock_id" "target") ;;
        emit (SetTitle (Ax 1 0) "Distribution par stock (Top 10)") ;;
        (* Statistiques descriptives *)
        t <- getitem l "target" ;;
        s <- getitem l "stock_id" ;;
        ti <- getitem l "time_id" ;;
        let stats_text :=
          "Statistiques des targets:" +:+ nl
          +:+ "    Count: " +:+ format_comma (series_count t) +:+ nl
          +:+ "    Mean: " +:+ format_f 4 (series_mean t) +:+ nl
          +:+ "    Std: " +:+ format_f 4 (series_std L t) +:+ nl
          +:+ "    Min: " +:+ format_f 4 (series_min t) +:+ nl
          +:+ "    Max: " +:+ format_f 4 (series_max t) +:+ nl
          +:+ "    " +:+ nl
          +:+ "    Skewness: " +:+ format_f 4 (series_skew L t) +:+ nl
          +:+ "    Kurtosis: " +:+ format_f 4 (series_kurtosis L t) +:+ nl
          +:+ "    " +:+ nl
          +:+ "    Nombre de stocks: " +:+ pretty (series_nunique s) +:+ nl
          +:+ "    Nombre de time_id: " +:+ pretty (series_nunique ti) +:+ nl
          +:+ "    " in
        emit (TextBox (Ax 1 1) stats_text) ;;
        emit Show
    end.

(** [df.groupby(key)[val].mean()]: one mean per distinct key, keys sorted. *)
Definition group_means (keys vals : Series) : list (Q * Cell) :=
  map (fun k => (k, series_mean (mask_filter (series_eqb (Some k) keys) vals)))
      (qsort (distinct (dropna keys))).

Definition price_cols : list string :=
  ["bid_price1"; "bid_price2"; "ask_price1"; "ask_price2"].

Definition plot_book_analysis (book_df : option loc) : Py unit :=
  match book_df with
  | None => print "Pas de données book disponibles"
  | Some l =>
      emit (Subplots 2 3) ;;
      emit (Suptitle "Analyse du Carnet d'Ordres (Order Book)") ;;
      (* Spread bid-ask level 1 *)
      ask <- getitem l "ask_price1" ;;
      bid <- getitem l "bid_price1" ;;
      setitem l "spread_1" (series_sub ask bid) ;;
      sp <- getitem l "spread_1" ;;
      emit (Hist (Ax 0 0) (Some <$> dropna sp) 50) ;;
      emit (SetTitle (Ax 0 0) "Distribution du Spread (Level 1)") ;;
      (* Evolution temporelle des prix (échantillon d'un stock) *)
      d <- deref l ;;
      has_stocks <-
        (if has_col "stock_id" d
         then s <- getitem l "stock_id" ;; ret (0 <? series_nunique s)%nat
         else ret false) ;;
      when has_stocks
        (s <- getitem l "stock_id" ;;
         sample_stock <- iloc0 s ;;
         d <- deref l ;;
         s <- getitem l "stock_id" ;;
         let stock_data := df_head 1000 (df_where (series_eqb sample_stock s) d) in
         xs <- column stock_data "seconds_in_bucket" ;;
         ys <- column stock_data "bid_price1" ;;
         emit (Line (Ax 0 1) xs ys "Bid Price 1") ;;
         xs <- column stock_data "seconds_in_bucket" ;;
         ys <- column stock_data "ask_price1" ;;
         emit (Line (Ax 0 1) xs ys "Ask Price 1") ;;
         emit (SetTitle (Ax 0 1)
                 ("Evolution des prix - Stock " +:+ str_scalar L sample_stock))) ;;
      (* Tailles des ordres *)
      bs <- getitem l "bid_size1" ;;
      az <- getitem l "ask_size1" ;;
      emit (Scatter (Ax 0 2) bs az None) ;;
      emit (SetTitle (Ax 0 2) "Tailles des ordres Bid vs Ask (Level 1)") ;;
      (* Distribution des secondes dans le bucket *)
      secs <- getitem l "seconds_in_bucket" ;;
      emit (Hist (Ax 1 0) secs 50) ;;
      emit (SetTitle (Ax 1 0) "Distribution des secondes dans le bucket") ;;
      (* Corrélation entre les niveaux de prix *)
      d <- deref l ;;
      let available_price_cols := filter (fun c => has_col c d = true) price_cols in
      when (1 <? length available_price_cols)%nat
        (d <- deref l ;;
         emit (Heatmap (Ax 1 1) (df_select available_price_cols d)) ;;
         emit (SetTitle (Ax 1 1) "Corrélation entre niveaux de prix")) ;;
      (* Stats par time_id (échantillon) *)
      d <- deref l ;;
      when (has_col "time_id" d)
        (keys <- getitem l "time_id" ;;
         sp <- getitem l "spread_1" ;;
         _ <- getitem l "bid_size1" ;;
         _ <- getitem l "ask_size1" ;;
         let time_stats := take 20 (group_means keys sp) in
         emit (Line (Ax 1 2) (map (fun r => Some r.1) time_stats)
                 (map snd time_stats) String.EmptyString) ;;
         emit (SetTitle (Ax 1 2) "Spread moyen par Time ID (échantillon)")) ;;
      emit Show
  end.

Definition plot_trade_analysis (trade_df : option loc) : Py unit :=
  match trade_df with
  | None => print "Pas de données trade disponibles"
  | Some l =>
      emit (Subplots 2 2) ;;
      emit (Suptitle "Analyse des Trades Exécutés") ;;
      (* Distribution des tailles de trades *)
      sz <- getitem l "size" ;;
      emit (Hist (Ax 0 0) sz 50) ;;
      emit (SetTitle (Ax 0 0) "Distribution des tailles de trades") ;;
      (* Distribution du nombre d'ordres *)
      oc <- getitem l "order_count" ;;
      emit (Hist (Ax 0 1) oc 30) ;;
      emit (SetTitle (Ax 0 1) "Distribution du nombre d'ordres par trade") ;;
      (* Relation taille vs prix *)
      sz <- getitem l "size" ;;
      pr <- getitem l "price" ;;
      emit (Scatter (Ax 1 0) sz pr None) ;;
      emit (SetTitle (Ax 1 0) "Relation Taille vs Prix") ;;
      (* Evolution temporelle des trades (échantillon) *)
      d <- deref l ;;
      has_stocks <-
        (if has_col "stock_id" d
         then s <- getitem l "stock_id" ;; ret (0 <? series_nunique s)%nat
         else ret false) ;;
      when has_stocks
        (s <- getitem l "stock_id" ;;
         sample_stock <- iloc0 s ;;
         d <- deref l ;;
         s <- getitem l "stock_id" ;;
         let stock_trades := df_head 500 (df_where (series_eqb sample_stock s) d) in
         xs <- column stock_trades "seconds_in_bucket" ;;
         ys <- column stock_trades "price" ;;
         sz <- column stock_trades "size" ;;
         emit (Scatter (Ax 1 1) xs ys
                 (Some (map (fmap (fun q => Qred (q / (10#1)))) sz))) ;;
         emit (SetTitle (Ax 1 1)
                 ("Trades dans le temps - Stock " +:+ str_scalar L sample_stock))) ;;
      emit Show
  end.

Definition rule : string := replicate_string 60 "=".

Definition flag (o : option loc) : string :=
  match o with Some _ => "✓" | None => "✗" end.

Definition generate_summary_report (loader : Loader.DataLoader)
    (book_data trade_data target_data : option loc) : Py unit :=
  print (nl +:+ rule) ;;
  print "RAPPORT DE SYNTHÈSE - DONNÉES OPTIVER" ;;
  print rule ;;
  print (nl +:+ "📊 APERÇU GÉNÉRAL:") ;;
  print ("   • Données book disponibles: " +:+ flag book_data) ;;
  print ("   • Données trade disponibles: " +:+ flag trade_data) ;;
  print ("   • Données target disponibles: " +:+ flag target_data) ;;
  match target_data with
  | None => ret tt
  | Some l =>
      print (nl +:+ "🎯 TARGETS (VOLATILITÉ):") ;;
      d <- deref l ;;
      print ("   • Nombre d'observations: " +:+ format_comma (df_len d)) ;;
      s <- getitem l "stock_id" ;;
      print ("   • Nombre de stocks: " +:+ pretty (series_nunique s)) ;;
      ti <- getitem l "time_id" ;;
      print ("   • Nombre de time buckets: " +:+ pretty (series_nunique ti)) ;;
      t <- getitem l "target" ;;
      print ("   • Volatilité moyenne: " +:+ format_f 4 (series_mean t)) ;;
      t <- getitem l "target" ;;
      print ("   • Volatilité médiane: " +:+ format_f 4 (series_median t)) ;;
      t <- getitem l "target" ;;
      print ("   • Écart-type: " +:+ format_f 4 (series_std L t))
  end ;;
  match book_data with
  | None => ret tt
  | Some l =>
      print (nl +:+ "📖 CARNET D'ORDRES:") ;;
      d <- deref l ;;
      print ("   • Nombre d'observations: " +:+ format_comma (df_len d)) ;;
      s <- getitem l "stock_id" ;;
      print ("   • Nombre de stocks: " +:+ pretty (series_nunique s)) ;;
      secs <- getitem l "seconds_in_bucket" ;;
      print ("   • Fréquence temporelle: " +:+ str_scalar L (series_max secs)
             +:+ " secondes max") ;;
      ask <- getitem l "ask_price1" ;;
      bid <- getitem l "bid_price1" ;;
      let spread_mean := series_mean (series_sub ask bid) in
      print ("   • Spread moyen (Level 1): " +:+ format_f 6 spread_mean)
  end ;;
  match trade_data with
  | None => ret tt
  | Some l =>
      print (nl +:+ "💹 TRADES EXÉCUTÉS:") ;;
      d <- deref l ;;
      print ("   • Nombre de trades: " +:+ format_comma (df_len d)) ;;
      s <- getitem l "stock_id" ;;
      print ("   • Nombre de stocks: " +:+ pretty (series_nunique s)) ;;
      sz <- getitem l "size" ;;
      print ("   • Taille moyenne des trades: " +:+ format_f 0 (series_mean sz)) ;;
      sz <- getitem l "size" ;;
      print ("   • Volume total: " +:+ comma_scalar L (series_sum sz)) ;;
      oc <- getitem l "order_count" ;;
      print ("   • Ordres moyens par trade: " +:+ format_f 1 (series_mean oc))
  end ;;
  print (nl +:+ "🔍 PROCHAINES ÉTAPES RECOMMANDÉES:") ;;
  print "   1. Feature Engineering sur les données microstructure" ;;
  print "   2. Analyse de la corrélation book-trade-volatilité" ;;
  print "   3. Création d'indicateurs techniques haute fréquence" ;;
  print "   4. Modélisation de la volatilité à 10 minutes" ;;
  print "   5. Validation temporelle des modèles" ;;
  print rule.

Definition visualize_data (loader : Loader.DataLoader)
    (book_data trade_data target_data : option loc) : Py unit :=
  print ("=== GÉNÉRATION DES VISUALISATIONS ===" +:+ nl) ;;
  when (bool_decide (is_Some target_data))
    (print "1. Analyse des targets..." ;;
     plot_target_distribution target_data) ;;
  when (bool_decide (is_Some book_data))
    (print "2. Analyse du carnet d'ordres..." ;;
     plot_book_analysis book_data) ;;
  when (bool_decide (is_Some trade_data))
    (print "3. Analyse des trades..." ;;
     plot_trade_analysis trade_data) ;;
  print "4. Génération du rapport de synthèse..." ;;
  generate_summary_report loader book_data trade_data target_data ;;
  print (nl +:+ "=== VISUALISATIONS TERMINÉES ===").

End Plots.

End Visualizer.

(** * Vocabulary of the statements *)

(** A stand-in for the library renderings, to run the functions on concrete
    tables. *)
Definition plain_lib : PyLib :=
  mkPyLib (format_f 0) (format_f 0)
    (fun _ => "[...]") (fun _ => "[...]") dropna
    (fun _ => "dtypes") (fun _ => "frame") (fun _ => "counts")
    (fun _ => "describe") (fun q => q)
    (fun _ => None) (fun _ => None) (fun _ => None).

Definition run {A} (m : Py A) (w : World) : Outcome A := (m w).1.
Definition after {A} (m : Py A) (w : World) : World := (m w).2.

(** The world with more output. *)
Definition logged (w : World) (evs : list Event) : World :=
  mkWorld (disk w) (heap w) (out w ++ evs).

(** ** Relations every statement of a computation keeps

    [keeps R m]: the world after [m] is [R]-related to the world before,
    whatever the outcome.  For a preorder [R] that tolerates output, every
    computation built from the primitives that do not write the heap keeps
    [R]. *)

Definition keeps (R : World -> World -> Prop) {A} (m : Py A) : Prop :=
  forall w, R w (after m w).

Class Tolerant (R : World -> World -> Prop) : Prop := {
  tol_refl : forall w, R w w;
  tol_trans : forall w1 w2 w3, R w1 w2 -> R w2 w3 -> R w1 w3;
  tol_emit : forall w e, R w (logged w [e])
}.

(** ** Worlds that agree *)

(** [same_objects]: the heap and the disk are what they were. *)
Definition same_objects (w w' : World) : Prop :=
  heap w' = heap w /\ disk w' = disk w.

(** [more_output]: the log has been extended, nothing was taken back. *)
Definition more_output (w w' : World) : Prop :=
  exists evs, out w' = out w ++ evs.

(** ** The loader's arguments and messages *)

(** The two enumerations [load_sample_data] accepts, and the file it then
    selects. *)
Inductive Kind := Book | Trade.
Inductive Split := Train | Test.

Definition kind_name (k : Kind) : string :=
  match k with Book => "book" | Trade => "trade" end.

Definition split_name (s : Split) : string :=
  match s with Train => "train" | Test => "test" end.

Definition selected_path (self : Loader.DataLoader) (k : Kind) (s : Split) : Path :=
  match k, s with
  | Book, Train => Loader.book_train_path self
  | Book, Test => Loader.book_test_path self
  | Trade, Train => Loader.trade_train_path self
  | Trade, Test => Loader.trade_test_path self
  end.

(** The three messages of [load_sample_data] and the one of a missing file. *)
Definition not_found (p : Path) : Event := Print ("Fichier non trouvé: " +:+ p).

Definition loading_banner (p : Path) : Event :=
  Print (nl +:+ "=== Chargement échantillon de " +:+ Loader.path_name p +:+ " ===").


Definition a_loader : Loader.DataLoader := Loader.init "raw_data".

(** No file at all. *)
Definition empty_world : World := mkWorld ∅ ∅ [].

(** What [load_sample_data] does on a file that exists and reads. *)
Definition sampled (n : Z) (df : DataFrame) : DataFrame :=
  if n <? Z.of_nat (df_len df) then df_head n df else df.

Definition three_rows : DataFrame :=
  mkDF 3 [("stock_id", [Some (0#1); Some (0#1); Some (1#1)]%Q);
          ("price", [Some (1001#1000); Some (1002#1000); Some (999#1000)]%Q)].

Definition book_train_only : World :=
  mkWorld {[ "raw_data/book_train.parquet" :=
               mkFile (inl "not a single file") (inr three_rows) (inl "not a CSV") ]}
          ∅ [].

(** ** Tables and worlds of the examples *)

(** The columns other than the derived one, in order, with their cells. *)
Definition other_columns (df : DataFrame) : list (string * Series) :=
  filter (fun c => c.1 <> "spread_1") (cols df).

(** One order-book row: bid 100, ask 100.5 at level 1. *)
Definition one_row_book : DataFrame :=
  mkDF 1 [("stock_id", [Some (0#1)%Q]);
          ("time_id", [Some (5#1)%Q]);
          ("seconds_in_bucket", [Some (0#1)%Q]);
          ("bid_price1", [Some (100#1)%Q]);
          ("ask_price1", [Some (201#2)%Q]);
          ("bid_price2", [Some (999#10)%Q]);
          ("ask_price2", [Some (1006#10)%Q]);
          ("bid_size1", [Some (3#1)%Q]);
          ("ask_size1", [Some (226#1)%Q])].

Definition book_world : World := mkWorld ∅ {[ 0%nat := one_row_book ]} [].

Definition empty_targets : DataFrame :=
  mkDF 0 [("stock_id", []); ("time_id", []); ("target", [])].

Definition empty_targets_world : World :=
  mkWorld ∅ {[ 0%nat := empty_targets ]} [].

(** The tables the guard of [plot_target_distribution] stops at. *)
Definition no_target (w : World) (targets_df : option loc) : Prop :=
  match targets_df with
  | None => True
  | Some l => exists df, heap w !! l = Some df /\ has_col "target" df = false
  end.

Definition no_columns_world : World := mkWorld ∅ {[ 0%nat := mkDF 0 [] ]} [].

(** The first of [names] the table has no column for. *)
Definition first_missing (names : list string) (df : DataFrame) : option string :=
  List.find (fun n => negb (bool_decide (is_Some (get_col n df)))) names.

Definition book_without_ask : DataFrame :=
  mkDF 1 [("stock_id", [Some (0#1)%Q]);
          ("time_id", [Some (5#1)%Q]);
          ("seconds_in_bucket", [Some (0#1)%Q]);
          ("bid_price1", [Some (100#1)%Q]);
          ("bid_size1", [Some (3#1)%Q]);
          ("ask_size1", [Some (226#1)%Q])].

Definition trade_without_size : DataFrame :=
  mkDF 1 [("stock_id", [Some (0#1)%Q]);
          ("time_id", [Some (5#1)%Q]);
          ("seconds_in_bucket", [Some (21#1)%Q]);
          ("price", [Some (1002#1000)%Q]);
          ("order_count", [Some (2#1)%Q])].

Definition incomplete_world : World :=
  mkWorld ∅ {[ 0%nat := book_without_ask; 1%nat := trade_without_size ]} [].

Definition example_targets : DataFrame :=
  mkDF 3 [("stock_id", [Some (1#1); Some (1#1); Some (2#1)]%Q);
          ("time_id", [Some (1#1); Some (2#1); Some (1#1)]%Q);
          ("target", [Some (1#100); Some (2#100); Some (3#100)]%Q)].

Definition targets_world : World := mkWorld ∅ {[ 0%nat := example_targets ]} [].

(** ** More tables and worlds *)

Definition partitioned_book : World :=
  mkWorld {[ "raw_data/book_train.parquet" :=
               mkFile (inl "is a directory") (inr three_rows) (inl "not a CSV") ]}
          ∅ [].

Definition labels_only : World :=
  mkWorld {[ "raw_data/train.csv" :=
               mkFile (inl "not parquet") (inl "not parquet") (inr example_targets) ]}
          ∅ [].

Definition targets_without_target : DataFrame :=
  mkDF 1 [("stock_id", [Some (0#1)%Q]); ("time_id", [Some (5#1)%Q])].

Definition unlabelled_world : World :=
  mkWorld ∅ {[ 0%nat := targets_without_target ]} [].

Definition one_trade : DataFrame :=
  mkDF 1 [("stock_id", [Some (0#1)%Q]);
          ("time_id", [Some (5#1)%Q]);
          ("seconds_in_bucket", [Some (21#1)%Q]);
          ("price", [Some (1002#1000)%Q]);
          ("size", [Some (326#1)%Q]);
          ("order_count", [Some (12#1)%Q])].

Definition market_world : World :=
  mkWorld ∅ {[ 0%nat := one_row_book; 1%nat := one_trade ]} [].

(** A book table with neither stock_id nor time_id. *)
Definition anonymous_book : DataFrame :=
  mkDF 1 [("seconds_in_bucket", [Some (0#1)%Q]);
          ("bid_price1", [Some (100#1)%Q]);
          ("ask_price1", [Some (201#2)%Q]);
          ("bid_size1", [Some (3#1)%Q]);
          ("ask_size1", [Some (226#1)%Q])].

Definition anonymous_world : World := mkWorld ∅ {[ 0%nat := anonymous_book ]} [].

(** ** Requests, status lines and readiness *)

(** The arguments [load_sample_data] has a file for. *)
Definition accepted (file_type split : string) : Prop :=
  (file_type = "book" \/ file_type = "trade") /\ (split = "train" \/ split = "test").

Definition rejection : Exn :=
  ValueError "file_type doit être 'book' ou 'trade', split doit être 'train' ou 'test'".

(** The line [check_files_exist] prints for a name. *)
Definition status_line (w : World) (entry : string * Path) : Event :=
  Print (ljust 12 entry.1 +:+ ": "
         +:+ (if bool_decide (is_Some (disk w !! entry.2)) then "✓" else "✗")
         +:+ " (" +:+ entry.2 +:+ ")").

(** [has_stocks df]: the test both plot functions make before they pick a
    sample stock, [stock_id in df.columns and df['stock_id'].nunique() > 0]. *)
Definition has_stocks (df : DataFrame) : bool :=
  match get_col "stock_id" df with
  | Some s => (0 <? series_nunique s)%nat
  | None => false
  end.

(** A dataset the report can go through: absent, or a table with every one of
    [names]. *)
Definition report_ready (w : World) (o : option loc) (names : list string) : Prop :=
  match o with
  | None => True
  | Some l => exists df, heap w !! l = Some df /\ first_missing names df = None
  end.

(** [post m w Q]: the outcome of [m] on [w] and the world it leaves satisfy
    [Q]. *)
Definition post {A} (m : Py A) (w : World) (Q : Outcome A -> World -> Prop) : Prop :=
  Q (m w).1 (m w).2.

(** An outcome that is an exception. *)
Definition raised {A} (o : Outcome A) : Prop :=
  match o with Return _ => False | Raise _ => True end.

(** The sizes the sample panels are cut to: 1000 rows of one stock for the
    price evolution, 20 time buckets for the mean spread, 500 trades of one
    stock for the trades in time. *)
Definition within_sample (e : Event) : Prop :=
  match e with
  | Line (Ax 0 1) xs ys _ => (length xs <= 1000 /\ length ys <= 1000)%nat
  | Line (Ax 1 2) xs ys _ => (length xs <= 20 /\ length ys <= 20)%nat
  | Scatter (Ax 1 1) xs ys _ => (length xs <= 500 /\ length ys <= 500)%nat
  | _ => True
  end.

(** * Reasoning about [Py] computations *)

(** ** Computations that keep a relation *)

Section Keeps.
Context (R : World -> World -> Prop) `{!Tolerant R}.

Lemma keeps_ret {A} (a : A) : keeps R (ret a).
Proof. intros w. apply tol_refl. Qed.

Lemma keeps_raise {A} (e : Exn) : keeps R (@raise A e).
Proof. intros w. apply tol_refl. Qed.

Lemma keeps_bind {A B} (m : Py A) (k : A -> Py B) :
  keeps R m -> (forall a, keeps R (k a)) -> keeps R (bind m k).
Proof.
  intros Hm Hk w. unfold after, bind.
  specialize (Hm w). unfold after in Hm.
  destruct (m w) as [[a|e] w1]; simpl in *; [|done].
  eapply tol_trans; [exact Hm|]. apply Hk.
Qed.

Lemma keeps_try_except {A} (body : Py A) (handler : Exn -> Py A) :
  keeps R body -> (forall e, keeps R (handler e)) -> keeps R (try_except body handler).
Proof.
  intros Hm Hk w. unfold after, try_except.
  specialize (Hm w). unfold after in Hm.
  destruct (body w) as [[a|e] w1]; simpl in *; [done|].
  eapply tol_trans; [exact Hm|]. apply Hk.
Qed.

Lemma keeps_emit (e : Event) : keeps R (emit e).
Proof. intros w. apply tol_emit. Qed.

Lemma keeps_print (s : string) : keeps R (print s).
Proof. apply keeps_emit. Qed.

Lemma keeps_when (c : bool) (body : Py unit) :
  keeps R body -> keeps R (when c body).
Proof. destruct c; simpl; [done|]. intros _. apply keeps_ret. Qed.

Lemma keeps_path_exists (p : Path) : keeps R (path_exists p).
Proof. intros w. apply tol_refl. Qed.

Lemma keeps_read_with {A} (reader : File -> string + A) (p : Path) :
  keeps R (read_with reader p).
Proof.
  intros w. unfold after, read_with.
  destruct (disk w !! p) as [f|]; [destruct (reader f)|]; apply tol_refl.
Qed.

Lemma keeps_deref (l : loc) : keeps R (deref l).
Proof.
  intros w. unfold after, deref. destruct (heap w !! l); apply tol_refl.
Qed.

Lemma keeps_column (df : DataFrame) (name : string) : keeps R (column df name).
Proof.
  unfold column. destruct (get_col name df); [apply keeps_ret|apply keeps_raise].
Qed.

Lemma keeps_getitem (l : loc) (name : string) : keeps R (getitem l name).
Proof.
  apply keeps_bind; [apply keeps_deref|]. intros df. apply keeps_column.
Qed.

Lemma keeps_iloc0 (s : Series) : keeps R (iloc0 s).
Proof. destruct s; [apply keeps_raise|apply keeps_ret]. Qed.

Lemma keeps_for_each {A S} (l : list A) (body : S -> A -> Py S) (acc : S) :
  (forall s x, keeps R (body s x)) -> keeps R (for_each l body acc).
Proof.
  intros Hb. revert acc.
  induction l as [|x l IH]; intros acc; simpl; [apply keeps_ret|].
  apply keeps_bind; [apply Hb|]. intros a. apply IH.
Qed.

End Keeps.

(** Walks through a computation, one primitive at a time. *)
Ltac keeps_step :=
  lazymatch goal with
  | |- Tolerant _ => exact _
  | |- forall _, keeps _ _ => intros ?
  | |- keeps _ (bind _ _) => apply keeps_bind
  | |- keeps _ (try_except _ _) => apply keeps_try_except
  | |- keeps _ (ret _) => apply keeps_ret
  | |- keeps _ (raise _) => apply keeps_raise
  | |- keeps _ (emit _) => apply keeps_emit
  | |- keeps _ (print _) => apply keeps_print
  | |- keeps _ (when _ _) => apply keeps_when
  | |- keeps _ (path_exists _) => apply keeps_path_exists
  | |- keeps _ (read_with _ _) => apply keeps_read_with
  | |- keeps _ (deref _) => apply keeps_deref
  | |- keeps _ (column _ _) => apply keeps_column
  | |- keeps _ (getitem _ _) => apply keeps_getitem
  | |- keeps _ (iloc0 _) => apply keeps_iloc0
  | |- keeps _ (if ?c then _ else _) => destruct c
  | |- keeps _ (match ?x with _ => _ end) => destruct x
  end.

#[export] Instance same_objects_tolerant : Tolerant same_objects.
Proof.
  split; [done| |done].
  intros w1 w2 w3 [? ?] [? ?]. split; congruence.
Qed.

#[export] Instance more_output_tolerant : Tolerant more_output.
Proof.
  split.
  - intros w. exists []. by rewrite app_nil_r.
  - intros w1 w2 w3 [e1 H1] [e2 H2]. exists (e1 ++ e2).
    by rewrite H2, H1, app_assoc.
  - intros w e. by exists [e].
Qed.

(** ** Running a computation one statement at a time *)

Lemma logged_logged w evs evs' :
  logged (logged w evs) evs' = logged w (evs ++ evs').
Proof. unfold logged. simpl. by rewrite app_assoc. Qed.

Lemma logged_nil w : logged w [] = w.
Proof. destruct w. unfold logged. simpl. by rewrite app_nil_r. Qed.

Lemma heap_logged w evs : heap (logged w evs) = heap w.
Proof. done. Qed.

Lemma disk_logged w evs : disk (logged w evs) = disk w.
Proof. done. Qed.

Section Stepping.
Context {A B : Type} (k : A -> Py B) (w : World).

Lemma bind_ret a : bind (ret a) k w = k a w.
Proof. done. Qed.

Lemma bind_raise e : bind (raise e) k w = (Raise e, w).
Proof. done. Qed.

Lemma bind_bind {C} (m : Py C) (f : C -> Py A) :
  bind (bind m f) k w = bind m (fun c => bind (f c) k) w.
Proof. unfold bind. by destruct (m w) as [[c|e] w1]. Qed.

Lemma bind_returns (m : Py A) a w1 :
  m w = (Return a, w1) -> bind m k w = k a w1.
Proof. intros H. unfold bind. by rewrite H. Qed.

Lemma bind_raises (m : Py A) e w1 :
  m w = (Raise e, w1) -> bind m k w = (Raise e, w1).
Proof. intros H. unfold bind. by rewrite H. Qed.

Lemma try_returns (body : Py A) (handler : Exn -> Py A) a w1 :
  body w = (Return a, w1) -> try_except body handler w = (Return a, w1).
Proof. intros H. unfold try_except. by rewrite H. Qed.

Lemma try_raises (body : Py A) (handler : Exn -> Py A) e w1 :
  body w = (Raise e, w1) -> try_except body handler w = handler e w1.
Proof. intros H. unfold try_except. by rewrite H. Qed.

End Stepping.

Section SteppingPrimitives.
Context {B : Type} (w : World).

Lemma bind_emit e (k : unit -> Py B) : bind (emit e) k w = k tt (logged w [e]).
Proof. done. Qed.

Lemma bind_print s (k : unit -> Py B) :
  bind (print s) k w = k tt (logged w [Print s]).
Proof. done. Qed.

Lemma bind_path_exists p (k : bool -> Py B) :
  bind (path_exists p) k w = k (bool_decide (is_Some (disk w !! p))) w.
Proof. done. Qed.

Lemma bind_deref l df (k : DataFrame -> Py B) :
  heap w !! l = Some df -> bind (deref l) k w = k df w.
Proof. intros H. unfold bind, deref. by rewrite H. Qed.

Lemma bind_column df name s (k : Series -> Py B) :
  get_col name df = Some s -> bind (column df name) k w = k s w.
Proof. intros H. unfold bind, column. by rewrite H. Qed.

Lemma bind_column_missing df name (k : Series -> Py B) :
  get_col name df = None -> bind (column df name) k w = (Raise (KeyError name), w).
Proof. intros H. unfold bind, column. by rewrite H. Qed.

Lemma bind_getitem l df name s (k : Series -> Py B) :
  heap w !! l = Some df -> get_col name df = Some s ->
  bind (getitem l name) k w = k s w.
Proof.
  intros H1 H2. unfold getitem. rewrite bind_bind, (bind_deref _ _ _ H1).
  by apply bind_column.
Qed.

Lemma bind_getitem_missing l df name (k : Series -> Py B) :
  heap w !! l = Some df -> get_col name df = None ->
  bind (getitem l name) k w = (Raise (KeyError name), w).
Proof.
  intros H1 H2. unfold getitem. rewrite bind_bind, (bind_deref _ _ _ H1).
  by apply bind_column_missing.
Qed.

Lemma bind_getitem_dangling l name (k : Series -> Py B) :
  heap w !! l = None -> bind (getitem l name) k w = (Raise (DanglingRef l), w).
Proof. intros H. unfold getitem, bind, deref. by rewrite H. Qed.

Lemma bind_setitem l df name s (k : unit -> Py B) :
  heap w !! l = Some df ->
  bind (setitem l name s) k w
  = k tt (mkWorld (disk w) (<[l := set_col name s df]> (heap w)) (out w)).
Proof. intros H. unfold bind, setitem, update. by rewrite H. Qed.

End SteppingPrimitives.

(** One statement of a computation run on a world whose tables are known. *)
Ltac py_step :=
  cbv beta iota;
  first
    [ rewrite bind_bind
    | rewrite bind_ret
    | rewrite bind_print
    | rewrite bind_emit
    | erewrite bind_deref by (rewrite ?heap_logged; eassumption)
    | erewrite bind_getitem
        by (rewrite ?heap_logged; first [eassumption|reflexivity])
    | erewrite bind_getitem_missing
        by (rewrite ?heap_logged; first [eassumption|reflexivity]) ].

Lemma notices_app l1 l2 : notices (l1 ++ l2) = notices l1 ++ notices l2.
Proof. apply filter_app. Qed.

Lemma renderings_app l1 l2 : renderings (l1 ++ l2) = renderings l1 ++ renderings l2.
Proof. apply filter_app. Qed.

(** * The loader *)

Module LoaderFacts.
Import Loader.

Lemma path_exists_some (p : Path) (f : File) (w : World) :
  disk w !! p = Some f -> path_exists p w = (Return true, w).
Proof. intros H. unfold path_exists. by rewrite H. Qed.

Lemma path_exists_none (p : Path) (w : World) :
  disk w !! p = None -> path_exists p w = (Return false, w).
Proof. intros H. unfold path_exists. by rewrite H. Qed.

Lemma read_with_ok {A} (reader : File -> string + A) p f a w :
  disk w !! p = Some f -> reader f = inr a ->
  read_with reader p w = (Return a, w).
Proof. intros H1 H2. unfold read_with. by rewrite H1, H2. Qed.

Lemma read_with_error {A} (reader : File -> string + A) p f msg w :
  disk w !! p = Some f -> reader f = inl msg ->
  read_with reader p w = (Raise (LibraryError msg), w).
Proof. intros H1 H2. unfold read_with. by rewrite H1, H2. Qed.

(** The if/elif chain at the head of [load_sample_data], on the names of a
    kind and of a split. *)
Lemma file_selected (self : DataLoader) (k : Kind) (s : Split) :
  (if bool_decide (kind_name k = "book") && bool_decide (split_name s = "train")
   then ret (book_train_path self)
   else if bool_decide (kind_name k = "book") && bool_decide (split_name s = "test")
   then ret (book_test_path self)
   else if bool_decide (kind_name k = "trade") && bool_decide (split_name s = "train")
   then ret (trade_train_path self)
   else if bool_decide (kind_name k = "trade") && bool_decide (split_name s = "test")
   then ret (trade_test_path self)
   else raise (ValueError
     "file_type doit être 'book' ou 'trade', split doit être 'train' ou 'test'"))
  = ret (selected_path self k s).
Proof. by destruct k, s. Qed.

(** C10: on an absent table [basic_exploration] returns at once: nothing is
    printed, nothing is raised, whatever the label. *)
Theorem basic_exploration_absent (L : PyLib) (self : DataLoader)
    (data_name : string) (w : World) :
  basic_exploration L self None data_name w = (Return tt, w).
Proof. reflexivity. Qed.




(** The two read failures the amended C1 leaves aside, as the code has them:
    after a failed [pq.ParquetFile] the handler prints and the final [return]
    reads a local that was never bound; a failed [pd.read_csv] is not caught. *)
Lemma explore_unreadable_raises (self : DataLoader) p f msg w :
  disk w !! p = Some f -> parquet_meta f = inl msg ->
  run (explore_parquet_structure self p) w = Raise (UnboundLocalError "parquet_file").
Proof.
  intros Hp Hf. unfold explore_parquet_structure, run.
  rewrite bind_path_exists, bool_decide_true by eauto. cbn [negb].
  rewrite bind_print.
  erewrite bind_returns; cycle 1.
  { erewrite try_raises
      by (erewrite bind_raises; [done|by apply (read_with_error parquet_meta p f msg)]).
    by rewrite bind_print. }
  done.
Qed.

Lemma load_train_targets_unreadable_raises (self : DataLoader) f msg w :
  disk w !! train_csv_path self = Some f -> csv_data f = inl msg ->
  run (load_train_targets self) w = Raise (LibraryError msg).
Proof.
  intros Hp Hf. unfold load_train_targets, run.
  rewrite bind_path_exists, bool_decide_true by eauto. cbn [negb].
  rewrite bind_print.
  by erewrite bind_raises by (by apply (read_with_error csv_data _ f msg)).
Qed.

Lemma load_sample_data_readable (self : DataLoader) k s n w f df :
  disk w !! selected_path self k s = Some f ->
  parquet_data f = inr df ->
  let call := load_sample_data self (kind_name k) (split_name s) n in
  let l := fresh (dom (heap w)) in
  run call w = Return (Some l)
  /\ heap (after call w) = <[l := sampled n df]> (heap w)
  /\ disk (after call w) = disk w.
Proof.
  intros Hp Hf call l. subst call. unfold run, after, load_sample_data.
  rewrite file_selected, bind_ret, bind_path_exists, bool_decide_true by eauto.
  cbn [negb]. rewrite bind_print. unfold try_except.
  erewrite bind_returns by (by apply (read_with_ok parquet_data _ f df)).
  unfold sampled. by destruct (n <? Z.of_nat (df_len df)).
Qed.

Lemma read_with_returns {A} (reader : File -> string + A) p a w :
  run (read_with reader p) w = Return a ->
  exists f, disk w !! p = Some f /\ reader f = inr a.
Proof.
  unfold run, read_with. destruct (disk w !! p) as [f|]; [|done].
  destruct (reader f) as [msg|a'] eqn:Hr; [done|].
  simpl. intros [= ->]. by exists f.
Qed.

(** C2: on a file that exists and loads, with a positive bound [n],
    [load_sample_data] returns a table of at most [n] rows: the first [n] rows
    of the file when it has more than [n], the whole file otherwise. *)
Theorem load_sample_data_at_most_n (self : DataLoader) (k : Kind) (s : Split)
    (n : Z) (w : World) (f : File) (df : DataFrame) :
  0 < n ->
  disk w !! selected_path self k s = Some f ->
  parquet_data f = inr df ->
  let call := load_sample_data self (kind_name k) (split_name s) n in
  exists l df',
    run call w = Return (Some l)
    /\ heap (after call w) !! l = Some df'
    /\ Z.of_nat (df_len df') <= n
    /\ (n < Z.of_nat (df_len df) ->
        df_len df' = Z.to_nat n
        /\ cols df' = map (fun c => (c.1, take (Z.to_nat n) c.2)) (cols df))
    /\ (Z.of_nat (df_len df) <= n -> df' = df).
Proof.
  intros Hn Hp Hf call.
  destruct (load_sample_data_readable self k s n w f df Hp Hf) as (Hr & Hh & _).
  exists (fresh (dom (heap w))), (sampled n df).
  split; [done|]. split; [subst call; rewrite Hh; apply lookup_insert_eq|].
  unfold sampled, df_head, slice_len.
  destruct (Z.ltb_spec n (Z.of_nat (df_len df))) as [Hlt|Hge].
  - replace (0 <=? n) with true by (symmetry; apply Z.leb_le; lia).
    replace (Z.to_nat n `min` df_len df)%nat with (Z.to_nat n) by lia.
    simpl. repeat split; [lia|lia].
  - repeat split; [lia|lia|lia].
Qed.

Lemma load_sample_data_at_most_n_witness :
  exists l df',
    run (load_sample_data a_loader "book" "train" 2) book_train_only = Return (Some l)
    /\ heap (after (load_sample_data a_loader "book" "train" 2) book_train_only) !! l
       = Some df'
    /\ Z.of_nat (df_len df') <= 2
    /\ (2 < Z.of_nat (df_len three_rows) ->
        df_len df' = Z.to_nat 2
        /\ cols df' = map (fun c => (c.1, take (Z.to_nat 2) c.2)) (cols three_rows))
    /\ (Z.of_nat (df_len three_rows) <= 2 -> df' = three_rows).
Proof.
  apply (load_sample_data_at_most_n a_loader Book Train 2 book_train_only
           (mkFile (inl "not a single file") (inr three_rows) (inl "not a CSV"))
           three_rows); [lia|reflexivity|reflexivity].
Defined.

(** C6: when the bound [n] is at least the number of rows of the file,
    [load_sample_data] returns the very table that reading the file without
    any bound yields. *)
Theorem load_sample_data_no_truncation (self : DataLoader) (k : Kind) (s : Split)
    (n : Z) (w : World) (df : DataFrame) :
  run (read_with parquet_data (selected_path self k s)) w = Return df ->
  Z.of_nat (df_len df) <= n ->
  let call := load_sample_data self (kind_name k) (split_name s) n in
  exists l,
    run call w = Return (Some l) /\ heap (after call w) !! l = Some df.
Proof.
  intros Hread Hn call.
  destruct (read_with_returns _ _ _ _ Hread) as (f & Hp & Hf).
  destruct (load_sample_data_readable self k s n w f df Hp Hf) as (Hr & Hh & _).
  exists (fresh (dom (heap w))). split; [done|].
  subst call. rewrite Hh, lookup_insert_eq. unfold sampled.
  by replace (n <? Z.of_nat (df_len df)) with false by (symmetry; apply Z.ltb_ge; lia).
Qed.

Lemma load_sample_data_no_truncation_witness :
  exists l,
    run (load_sample_data a_loader "book" "train" 3) book_train_only = Return (Some l)
    /\ heap (after (load_sample_data a_loader "book" "train" 3) book_train_only) !! l
       = Some three_rows.
Proof.
  apply (load_sample_data_no_truncation a_loader Book Train 3 book_train_only three_rows);
    [reflexivity|simpl; lia].
Defined.

End LoaderFacts.

(** * The visualiser *)

Module VisualizerFacts.
Import Visualizer.

(** ** Columns under [df[name] = s] *)

Lemma assoc_get_set_eq name s l : assoc_get name (assoc_set name s l) = Some s.
Proof.
  induction l as [|[k v] l IH]; simpl.
  - by rewrite decide_True.
  - destruct (decide (k = name)) as [->|Hne]; simpl.
    + by rewrite decide_True.
    + by rewrite decide_False.
Qed.

Lemma assoc_get_set_ne name name' s l :
  name' <> name -> assoc_get name' (assoc_set name s l) = assoc_get name' l.
Proof.
  intros Hne. induction l as [|[k v] l IH]; simpl.
  - by rewrite decide_False.
  - destruct (decide (k = name)) as [->|Hk]; simpl.
    + by rewrite !decide_False.
    + by rewrite IH.
Qed.

Lemma get_col_set_col_eq name s df : get_col name (set_col name s df) = Some s.
Proof. apply assoc_get_set_eq. Qed.

Lemma get_col_set_col_ne name name' s df :
  name' <> name -> get_col name' (set_col name s df) = get_col name' df.
Proof. apply assoc_get_set_ne. Qed.

Lemma elem_of_assoc_set name name' s l :
  name' ∈ (assoc_set name s l).*1 <-> name' = name \/ name' ∈ l.*1.
Proof.
  induction l as [|[k v] l IH]; simpl.
  - set_solver.
  - destruct (decide (k = name)) as [->|Hk]; simpl; set_solver.
Qed.

Lemma has_col_set_col_ne name name' s df :
  name' <> name -> has_col name' (set_col name s df) = has_col name' df.
Proof.
  intros Hne. unfold has_col, columns, set_col. simpl.
  apply bool_decide_ext. rewrite elem_of_assoc_set. naive_solver.
Qed.

Lemma has_col_get_col name df : has_col name df = bool_decide (is_Some (get_col name df)).
Proof.
  unfold has_col, columns, get_col. apply bool_decide_ext.
  induction (cols df) as [|[k v] l IH]; simpl.
  - split; [set_solver|by intros [? ?]].
  - destruct (decide (k = name)) as [->|Hk].
    + split; [eauto|set_solver].
    + rewrite <- IH. set_solver.
Qed.

Lemma other_columns_set_col s df :
  other_columns (set_col "spread_1" s df) = other_columns df.
Proof.
  unfold other_columns, set_col. simpl.
  induction (cols df) as [|[k v] l IH]; simpl.
  - by rewrite filter_cons_False by (simpl; auto).
  - destruct (decide (k = "spread_1")) as [->|Hk].
    + by rewrite !filter_cons_False by (simpl; auto).
    + rewrite !filter_cons_True by done. by rewrite IH.
Qed.

(** ** What the analyses do to the heap *)

Section Frames.
Context (L : PyLib).

Lemma basic_exploration_pure self df name :
  keeps same_objects (Loader.basic_exploration L self df name).
Proof. unfold Loader.basic_exploration. repeat keeps_step. Qed.

Lemma plot_target_distribution_pure targets_df :
  keeps same_objects (plot_target_distribution L targets_df).
Proof. unfold plot_target_distribution. repeat (cbv zeta; keeps_step). Qed.

Lemma plot_trade_analysis_pure trade_df :
  keeps same_objects (plot_trade_analysis L trade_df).
Proof. unfold plot_trade_analysis. repeat (cbv zeta; keeps_step). Qed.

Lemma generate_summary_report_keeps R `{!Tolerant R} loader book trade target :
  keeps R (generate_summary_report L loader book trade target).
Proof. unfold generate_summary_report. repeat (cbv zeta; keeps_step). Qed.

(** [plot_book_analysis] once the two price columns are there: the table at
    [l] gains (or has replaced) the column [spread_1]; the statements after
    the assignment write nothing. *)
Lemma plot_book_analysis_heap l w df ask bid :
  heap w !! l = Some df ->
  get_col "ask_price1" df = Some ask ->
  get_col "bid_price1" df = Some bid ->
  heap (after (plot_book_analysis L (Some l)) w)
  = <[l := set_col "spread_1" (series_sub ask bid) df]> (heap w)
  /\ disk (after (plot_book_analysis L (Some l)) w) = disk w.
Proof.
  intros Hl Hask Hbid. unfold after, plot_book_analysis.
  rewrite !bind_emit.
  erewrite bind_getitem by (rewrite ?heap_logged; eassumption).
  erewrite bind_getitem by (rewrite ?heap_logged; eassumption).
  erewrite bind_setitem by (rewrite ?heap_logged; eassumption).
  match goal with
  | |- context [(?m ?w0).2] =>
      change ((m w0).2) with (after m w0);
      assert (Hk : keeps same_objects m) by repeat (cbv zeta; keeps_step);
      destruct (Hk w0) as [Hh Hd]
  end.
  by rewrite Hh, Hd.
Qed.

End Frames.

(** ** Tables after the analyses *)

(** C3, as stated, fails: after [plot_book_analysis] the table it was given
    has one column more. *)
Lemma plot_book_analysis_adds_column :
  run (plot_book_analysis plain_lib (Some 0%nat)) book_world = Return tt
  /\ columns <$> heap book_world !! 0%nat
     = Some ["stock_id"; "time_id"; "seconds_in_bucket"; "bid_price1";
             "ask_price1"; "bid_price2"; "ask_price2"; "bid_size1"; "ask_size1"]
  /\ columns <$> heap (after (plot_book_analysis plain_lib (Some 0%nat)) book_world) !! 0%nat
     = Some ["stock_id"; "time_id"; "seconds_in_bucket"; "bid_price1";
             "ask_price1"; "bid_price2"; "ask_price2"; "bid_size1"; "ask_size1";
             "spread_1"].
Proof. by vm_compute. Qed.

(** C3, amended: [basic_exploration], [plot_target_distribution],
    [plot_trade_analysis] and [generate_summary_report] leave every table as it
    was.  [plot_book_analysis] writes one thing: once the table has the
    columns ask_price1 and bid_price1, its column spread_1 is set to their
    difference; the row count and every other column stay as they were, and no
    other table is touched. *)
Theorem analyses_leave_tables (L : PyLib) :
  (forall self df name, keeps same_objects (Loader.basic_exploration L self df name))
  /\ (forall targets_df, keeps same_objects (plot_target_distribution L targets_df))
  /\ (forall trade_df, keeps same_objects (plot_trade_analysis L trade_df))
  /\ (forall loader book trade target,
        keeps same_objects (generate_summary_report L loader book trade target))
  /\ (forall book_df w,
        let w' := after (plot_book_analysis L book_df) w in
        disk w' = disk w
        /\ match book_df with
           | None => heap w' = heap w
           | Some l =>
               match heap w !! l with
               | None => heap w' = heap w
               | Some df =>
                   match get_col "ask_price1" df, get_col "bid_price1" df with
                   | Some ask, Some bid =>
                       let df' := set_col "spread_1" (series_sub ask bid) df in
                       heap w' = <[l := df']> (heap w)
                       /\ df_len df' = df_len df
                       /\ other_columns df' = other_columns df
                   | _, _ => heap w' = heap w
                   end
               end
           end).
Proof.
  split; [intros; apply basic_exploration_pure|].
  split; [intros; apply plot_target_distribution_pure|].
  split; [intros; apply plot_trade_analysis_pure|].
  split; [intros; apply (generate_summary_report_keeps L same_objects)|].
  intros [l|] w; [|done]. cbv zeta.
  destruct (heap w !! l) as [df|] eqn:Hl.
  - destruct (get_col "ask_price1" df) as [ask|] eqn:Hask.
    + destruct (get_col "bid_price1" df) as [bid|] eqn:Hbid.
      * destruct (plot_book_analysis_heap L l w df ask bid Hl Hask Hbid) as [Hh Hd].
        split; [done|]. split; [done|]. split; [done|].
        apply other_columns_set_col.
      * unfold after, plot_book_analysis. rewrite !bind_emit.
        erewrite bind_getitem by (rewrite ?heap_logged; eassumption).
        by erewrite bind_getitem_missing by (rewrite ?heap_logged; eassumption).
    + unfold after, plot_book_analysis. rewrite !bind_emit.
      by erewrite bind_getitem_missing by (rewrite ?heap_logged; eassumption).
  - unfold after, plot_book_analysis. rewrite !bind_emit.
    by erewrite bind_getitem_dangling by (by rewrite ?heap_logged).
Qed.

(** ** The level-1 spread *)




(** The report derives the same difference and prints its mean. *)
Lemma report_spread_mean_example :
  Print "   • Spread moyen (Level 1): 0.500000"
  ∈ out (after (generate_summary_report plain_lib a_loader
                  (Some 0%nat) None None) book_world).
Proof. vm_compute. set_solver. Qed.

(** ** The notice of [plot_target_distribution] *)

(** C5, as stated, fails: a target table with no row, but with its columns,
    is drawn, and no notice is printed. *)
Lemma plot_target_distribution_draws_empty :
  let w' := after (plot_target_distribution plain_lib (Some 0%nat)) empty_targets_world in
  notices (out w') = []
  /\ head (renderings (out w')) = Some (Subplots 2 2)
  /\ last (renderings (out w')) = Some Show.
Proof. by vm_compute. Qed.

(** C5, amended: on a target table that is absent or has no target column
    (so, on a table with no column at all) [plot_target_distribution] returns
    after one console notice and no drawing call. *)
Theorem plot_target_distribution_notice (L : PyLib) (targets_df : option loc)
    (w : World) :
  no_target w targets_df ->
  let w' := after (plot_target_distribution L targets_df) w in
  run (plot_target_distribution L targets_df) w = Return tt
  /\ out w' = out w ++ [Print "Pas de données targets disponibles"]
  /\ notices (out w') = notices (out w) ++ [Print "Pas de données targets disponibles"]
  /\ renderings (out w') = renderings (out w)
  /\ same_objects w w'.
Proof.
  intros Hno. cbv zeta.
  assert (Hrun : plot_target_distribution L targets_df w
                 = (Return tt, logged w [Print "Pas de données targets disponibles"])).
  { unfold plot_target_distribution. destruct targets_df as [l|]; simpl in Hno.
    - destruct Hno as (df & Hl & Hc). repeat py_step. by rewrite Hc.
    - by py_step. }
  unfold run, after. rewrite Hrun. simpl.
  rewrite notices_app, renderings_app. simpl. by rewrite app_nil_r.
Qed.

Lemma plot_target_distribution_notice_witness :
  let w' := after (plot_target_distribution plain_lib (Some 0%nat)) no_columns_world in
  run (plot_target_distribution plain_lib (Some 0%nat)) no_columns_world = Return tt
  /\ out w' = out no_columns_world ++ [Print "Pas de données targets disponibles"]
  /\ notices (out w')
     = notices (out no_columns_world) ++ [Print "Pas de données targets disponibles"]
  /\ renderings (out w') = renderings (out no_columns_world)
  /\ same_objects no_columns_world w'.
Proof.
  apply (plot_target_distribution_notice plain_lib (Some 0%nat) no_columns_world).
  exists (mkDF 0 []). split; reflexivity.
Defined.

(** ** Missing columns *)


Lemma get_col_missing name df :
  bool_decide (is_Some (get_col name df)) = false -> get_col name df = None.
Proof.
  intros H. apply bool_decide_eq_false in H.
  destruct (get_col name df); [|done]. by destruct H.
Qed.

Lemma get_col_present name df :
  bool_decide (is_Some (get_col name df)) = true -> exists s, get_col name df = Some s.
Proof. intros H. by apply bool_decide_eq_true in H as [s Hs]; exists s. Qed.

(** Splits on the columns [first_missing] looks at, in order. *)
Ltac split_missing H :=
  unfold first_missing in H; simpl in H;
  repeat match type of H with
  | context [bool_decide (is_Some (get_col ?n ?df))] =>
      let E := fresh "E" in
      destruct (bool_decide (is_Some (get_col n df))) eqn:E;
      [apply get_col_present in E as [? E]|apply get_col_missing in E];
      simpl in H
  end.



(** Where the code does guard a column, the chart is left out without a
    word: a book table with the columns read unguarded, but neither stock_id
    nor time_id, gets its figure without the price-evolution and the
    per-time-bucket panels, and the console stays as it was. *)
Lemma plot_book_analysis_guarded_columns (L : PyLib) l w df ask bid bs az secs :
  heap w !! l = Some df ->
  get_col "ask_price1" df = Some ask ->
  get_col "bid_price1" df = Some bid ->
  get_col "bid_size1" df = Some bs ->
  get_col "ask_size1" df = Some az ->
  get_col "seconds_in_bucket" df = Some secs ->
  has_col "stock_id" df = false ->
  has_col "time_id" df = false ->
  let df' := set_col "spread_1" (series_sub ask bid) df in
  run (plot_book_analysis L (Some l)) w = Return tt
  /\ out (after (plot_book_analysis L (Some l)) w)
     = out w ++
       [Subplots 2 3; Suptitle "Analyse du Carnet d'Ordres (Order Book)";
        Hist (Ax 0 0) (Some <$> dropna (series_sub ask bid)) 50;
        SetTitle (Ax 0 0) "Distribution du Spread (Level 1)";
        Scatter (Ax 0 2) bs az None;
        SetTitle (Ax 0 2) "Tailles des ordres Bid vs Ask (Level 1)";
        Hist (Ax 1 0) secs 50;
        SetTitle (Ax 1 0) "Distribution des secondes dans le bucket";
        Heatmap (Ax 1 1)
          (df_select (filter (fun c => has_col c df' = true) price_cols) df');
        SetTitle (Ax 1 1) "Corrélation entre niveaux de prix";
        Show].
Proof.
  intros Hl Hask Hbid Hbs Haz Hsecs Hstock Htime df'.
  assert (Hl' : forall d o, heap (mkWorld d (<[l := df']> (heap w)) o) !! l = Some df')
    by (intros; apply lookup_insert_eq).
  assert (Hsp : get_col "spread_1" df' = Some (series_sub ask bid))
    by apply get_col_set_col_eq.
  assert (Hbs' : get_col "bid_size1" df' = Some bs)
    by (subst df'; by rewrite get_col_set_col_ne).
  assert (Haz' : get_col "ask_size1" df' = Some az)
    by (subst df'; by rewrite get_col_set_col_ne).
  assert (Hsecs' : get_col "seconds_in_bucket" df' = Some secs)
    by (subst df'; by rewrite get_col_set_col_ne).
  assert (Hstock' : has_col "stock_id" df' = false)
    by (subst df'; by rewrite has_col_set_col_ne).
  assert (Htime' : has_col "time_id" df' = false)
    by (subst df'; by rewrite has_col_set_col_ne).
  assert (Hprices : (1 <? length (filter (fun c => has_col c df' = true) price_cols))%nat
                    = true).
  { assert (Ha : has_col "ask_price1" df' = true).
    { subst df'. rewrite has_col_set_col_ne, has_col_get_col, Hask by done.
      by apply bool_decide_eq_true. }
    assert (Hb : has_col "bid_price1" df' = true).
    { subst df'. rewrite has_col_set_col_ne, has_col_get_col, Hbid by done.
      by apply bool_decide_eq_true. }
    unfold price_cols.
    rewrite filter_cons_True by done.
    destruct (has_col "bid_price2" df') eqn:E2.
    - by rewrite (filter_cons_True _ "bid_price2") by done.
    - rewrite (filter_cons_False _ "bid_price2") by (by rewrite E2).
      by rewrite (filter_cons_True _ "ask_price1") by done. }
  unfold run, after, plot_book_analysis.
  rewrite !bind_emit.
  erewrite bind_getitem by (rewrite ?heap_logged; eassumption).
  erewrite bind_getitem by (rewrite ?heap_logged; eassumption).
  erewrite bind_setitem by (rewrite ?heap_logged; eassumption).
  fold df'.
  erewrite bind_getitem by (rewrite ?heap_logged; first [apply Hl'|exact Hsp]).
  rewrite !bind_emit.
  erewrite bind_deref by (rewrite ?heap_logged; apply Hl').
  rewrite Hstock', bind_ret. cbn [when]. rewrite bind_ret.
  erewrite bind_getitem by (rewrite ?heap_logged; first [apply Hl'|exact Hbs']).
  erewrite bind_getitem by (rewrite ?heap_logged; first [apply Hl'|exact Haz']).
  rewrite !bind_emit.
  erewrite bind_getitem by (rewrite ?heap_logged; first [apply Hl'|exact Hsecs']).
  rewrite !bind_emit.
  erewrite bind_deref by (rewrite ?heap_logged; apply Hl').
  cbv zeta. rewrite Hprices. cbn [when]. rewrite bind_bind.
  erewrite bind_deref by (rewrite ?heap_logged; apply Hl').
  rewrite bind_bind, !bind_emit.
  erewrite bind_deref by (rewrite ?heap_logged; apply Hl').
  rewrite Htime'. cbn [when]. rewrite bind_ret.
  rewrite !logged_logged. simpl. by rewrite <- !app_assoc.
Qed.

Lemma plot_book_analysis_guarded_columns_witness :
  let df' :=
    set_col "spread_1" (series_sub [Some (201#2)%Q] [Some (100#1)%Q]) anonymous_book in
  run (plot_book_analysis plain_lib (Some 0%nat)) anonymous_world = Return tt
  /\ out (after (plot_book_analysis plain_lib (Some 0%nat)) anonymous_world)
     = out anonymous_world ++
       [Subplots 2 3; Suptitle "Analyse du Carnet d'Ordres (Order Book)";
        Hist (Ax 0 0)
          (Some <$> dropna (series_sub [Some (201#2)%Q] [Some (100#1)%Q])) 50;
        SetTitle (Ax 0 0) "Distribution du Spread (Level 1)";
        Scatter (Ax 0 2) [Some (3#1)%Q] [Some (226#1)%Q] None;
        SetTitle (Ax 0 2) "Tailles des ordres Bid vs Ask (Level 1)";
        Hist (Ax 1 0) [Some (0#1)%Q] 50;
        SetTitle (Ax 1 0) "Distribution des secondes dans le bucket";
        Heatmap (Ax 1 1)
          (df_select (filter (fun c => has_col c df' = true) price_cols) df');
        SetTitle (Ax 1 1) "Corrélation entre niveaux de prix";
        Show].
Proof.
  apply (plot_book_analysis_guarded_columns plain_lib 0%nat anonymous_world
           anonymous_book [Some (201#2)%Q] [Some (100#1)%Q]
           [Some (3#1)%Q] [Some (226#1)%Q] [Some (0#1)%Q]); reflexivity.
Defined.

(** ** The report on three target rows *)

(** C8: on the three target rows (1,1,0.01), (1,2,0.02), (2,1,0.03) the
    report prints, in this order, 3 observations, 2 stocks, 2 time buckets and
    a mean of 0.0200, whatever book and trade tables come with them. *)
Theorem report_on_example_targets (L : PyLib) (loader : Loader.DataLoader)
    (book trade : option loc) (l : loc) (w : World) :
  heap w !! l = Some example_targets ->
  exists before rest,
    out (after (generate_summary_report L loader book trade (Some l)) w)
    = out w ++ before
      ++ [Print "   • Nombre d'observations: 3";
          Print "   • Nombre de stocks: 2";
          Print "   • Nombre de time buckets: 2";
          Print "   • Volatilité moyenne: 0.0200"]
      ++ rest.
Proof.
  intros Hl. unfold after, generate_summary_report.
  repeat py_step. rewrite !logged_logged.
  match goal with
  | |- context [(?m ?w0).2] =>
      change ((m w0).2) with (after m w0);
      assert (Hk : keeps more_output m) by repeat (cbv zeta; keeps_step);
      destruct (Hk w0) as [evs Hevs]
  end.
  rewrite Hevs. simpl.
  exists [Print (nl +:+ rule);
          Print "RAPPORT DE SYNTHÈSE - DONNÉES OPTIVER";
          Print rule;
          Print (nl +:+ "📊 APERÇU GÉNÉRAL:");
          Print ("   • Données book disponibles: " +:+ flag book);
          Print ("   • Données trade disponibles: " +:+ flag trade);
          Print "   • Données target disponibles: ✓";
          Print (nl +:+ "🎯 TARGETS (VOLATILITÉ):")].
  exists ([Print "   • Volatilité médiane: 0.0200";
           Print ("   • Écart-type: "
                  +:+ format_f 4 (series_std L [Some (1#100); Some (2#100); Some (3#100)]%Q))]
          ++ evs).
  by rewrite <- !app_assoc.
Qed.

Lemma report_on_example_targets_witness :
  exists before rest,
    out (after (generate_summary_report plain_lib a_loader None None
                  (Some 0%nat)) targets_world)
    = out targets_world ++ before
      ++ [Print "   • Nombre d'observations: 3";
          Print "   • Nombre de stocks: 2";
          Print "   • Nombre de time buckets: 2";
          Print "   • Volatilité moyenne: 0.0200"]
      ++ rest.
Proof.
  apply (report_on_example_targets plain_lib a_loader None None
           0%nat targets_world).
  reflexivity.
Defined.

End VisualizerFacts.

(** * More on the loader *)

Module LoaderMore.
Import Loader LoaderFacts.

Lemma accepted_names (file_type split : string) :
  accepted file_type split ->
  exists k s, file_type = kind_name k /\ split = split_name s.
Proof.
  intros [[-> | ->] [-> | ->]];
    [by exists Book, Train|by exists Book, Test
    |by exists Trade, Train|by exists Trade, Test].
Qed.

Lemma load_sample_data_returns (self : DataLoader) k s n w :
  exists r, run (load_sample_data self (kind_name k) (split_name s) n) w = Return r.
Proof.
  unfold run, load_sample_data.
  rewrite file_selected, bind_ret, bind_path_exists.
  destruct (disk w !! selected_path self k s) as [f|] eqn:Hp.
  - rewrite bool_decide_true by eauto. cbn [negb]. rewrite bind_print.
    destruct (parquet_data f) as [msg|df] eqn:Hf.
    + erewrite try_raises
        by (erewrite bind_raises; [done|by eapply read_with_error]).
      rewrite bind_print. by eexists.
    + unfold try_except.
      erewrite bind_returns by (by eapply read_with_ok).
      destruct (n <? Z.of_nat (df_len df)); by eexists.
  - rewrite bool_decide_false by (by intros [? ?]). cbn [negb].
    rewrite bind_print. by eexists.
Qed.

(** [load_sample_data] raises its [ValueError] exactly on the requests it has
    no file for, and then before anything else: the disk is not looked at,
    nothing is printed, no table is made. *)
Theorem load_sample_data_rejects (self : DataLoader) (file_type split : string)
    (n : Z) (w : World) :
  (run (load_sample_data self file_type split n) w = Raise rejection
   <-> ~ accepted file_type split)
  /\ (~ accepted file_type split ->
      load_sample_data self file_type split n w = (Raise rejection, w)).
Proof.
  assert (Hrej : ~ accepted file_type split ->
                 load_sample_data self file_type split n w = (Raise rejection, w)).
  { intros Hna. unfold load_sample_data, accepted in *.
    repeat case_bool_decide; subst; simpl; try done; exfalso; apply Hna; auto. }
  split; [|done]. split.
  - intros Hr Ha. destruct (accepted_names _ _ Ha) as (k & s & -> & ->).
    destruct (load_sample_data_returns self k s n w) as [r Hret]. congruence.
  - intros Hna. unfold run. by rewrite Hrej.
Qed.

(** The whole effect of [load_sample_data] on a file that exists and reads. *)
Lemma load_sample_data_eval (self : DataLoader) k s n w f df :
  disk w !! selected_path self k s = Some f ->
  parquet_data f = inr df ->
  load_sample_data self (kind_name k) (split_name s) n w
  = (Return (Some (fresh (dom (heap w)))),
     mkWorld (disk w)
       (<[fresh (dom (heap w)) := sampled n df]> (heap w))
       (out w ++
        [loading_banner (selected_path self k s);
         if n <? Z.of_nat (df_len df)
         then Print ("Échantillon de " +:+ pretty n +:+ " lignes chargé (total: "
                     +:+ pretty (df_len (df_head n df)) +:+ " lignes dans le sample)")
         else Print ("Toutes les " +:+ pretty (df_len df) +:+ " lignes chargées")])).
Proof.
  intros Hp Hf. unfold load_sample_data.
  rewrite file_selected, bind_ret, bind_path_exists, bool_decide_true by eauto.
  cbn [negb]. rewrite bind_print. unfold try_except.
  erewrite bind_returns by (by apply (read_with_ok parquet_data _ f df)).
  unfold sampled.
  destruct (n <? Z.of_nat (df_len df)); rewrite bind_print;
    unfold bind, new_frame, ret, logged, loading_banner; simpl;
    by rewrite <- app_assoc.
Qed.

(** A bound that is not positive is not refused: with [nrows = 0] every file
    gives a table of no row, and with a negative [nrows] the file loses its
    last [-nrows] rows, so the table can have more rows than the bound. *)
Theorem load_sample_data_nonpositive (self : DataLoader) (k : Kind) (s : Split)
    (n : Z) (w : World) (f : File) (df : DataFrame) :
  n <= 0 ->
  disk w !! selected_path self k s = Some f ->
  parquet_data f = inr df ->
  let call := load_sample_data self (kind_name k) (split_name s) n in
  exists l df',
    run call w = Return (Some l)
    /\ heap (after call w) !! l = Some df'
    /\ (n = 0 -> df_len df' = 0%nat)
    /\ (n < 0 ->
        df_len df' = Z.to_nat (Z.of_nat (df_len df) + n)
        /\ cols df'
           = map (fun c => (c.1, take (Z.to_nat (Z.of_nat (df_len df) + n)) c.2))
               (cols df)).
Proof.
  intros Hn Hp Hf call. subst call.
  exists (fresh (dom (heap w))), (sampled n df).
  unfold run, after. rewrite (load_sample_data_eval self k s n w f df Hp Hf).
  simpl. split; [done|]. split; [apply lookup_insert_eq|].
  unfold sampled, df_head, slice_len. split.
  - intros ->. destruct (Z.ltb_spec 0 (Z.of_nat (df_len df))); simpl; lia.
  - intros Hneg.
    replace (n <? Z.of_nat (df_len df)) with true by (symmetry; apply Z.ltb_lt; lia).
    by replace (0 <=? n) with false by (symmetry; apply Z.leb_gt; lia).
Qed.

Lemma load_sample_data_nonpositive_witness :
  exists l df',
    run (load_sample_data a_loader "book" "train" (-1)) book_train_only = Return (Some l)
    /\ heap (after (load_sample_data a_loader "book" "train" (-1)) book_train_only) !! l
       = Some df'
    /\ (-1 = 0 -> df_len df' = 0%nat)
    /\ (-1 < 0 ->
        df_len df' = Z.to_nat (Z.of_nat (df_len three_rows) + -1)
        /\ cols df'
           = map (fun c => (c.1, take (Z.to_nat (Z.of_nat (df_len three_rows) + -1)) c.2))
               (cols three_rows)).
Proof.
  apply (load_sample_data_nonpositive a_loader Book Train (-1) book_train_only
           (mkFile (inl "not a single file") (inr three_rows) (inl "not a CSV"))
           three_rows); [lia|reflexivity|reflexivity].
Defined.

(** When the file is cut, the count announced as the total is the size of the
    sample, not of the file: the line is built after [df] has been replaced
    by its head. *)
Theorem load_sample_data_announces_sample_size (self : DataLoader) (k : Kind)
    (s : Split) (n : Z) (w : World) (f : File) (df : DataFrame) :
  0 <= n < Z.of_nat (df_len df) ->
  disk w !! selected_path self k s = Some f ->
  parquet_data f = inr df ->
  out (after (load_sample_data self (kind_name k) (split_name s) n) w)
  = out w ++
    [loading_banner (selected_path self k s);
     Print ("Échantillon de " +:+ pretty n +:+ " lignes chargé (total: "
            +:+ pretty (Z.to_nat n) +:+ " lignes dans le sample)")].
Proof.
  intros Hn Hp Hf. unfold after.
  rewrite (load_sample_data_eval self k s n w f df Hp Hf). simpl.
  replace (n <? Z.of_nat (df_len df)) with true by (symmetry; apply Z.ltb_lt; lia).
  unfold slice_len.
  replace (0 <=? n) with true by (symmetry; apply Z.leb_le; lia).
  by replace (Z.to_nat n `min` df_len df)%nat with (Z.to_nat n) by lia.
Qed.

Lemma load_sample_data_announces_sample_size_witness :
  out (after (load_sample_data a_loader "book" "train" 2) book_train_only)
  = out book_train_only ++
    [loading_banner (selected_path a_loader Book Train);
     Print ("Échantillon de " +:+ pretty 2 +:+ " lignes chargé (total: "
            +:+ pretty (Z.to_nat 2) +:+ " lignes dans le sample)")].
Proof.
  apply (load_sample_data_announces_sample_size a_loader Book Train 2 book_train_only
           (mkFile (inl "not a single file") (inr three_rows) (inl "not a CSV"))
           three_rows); [simpl; lia|reflexivity|reflexivity].
Defined.

(** The table returned is a new object: its location held nothing before the
    call, and every table that was there is still there, unchanged. *)
Theorem load_sample_data_fresh_table (self : DataLoader) (k : Kind) (s : Split)
    (n : Z) (w : World) (f : File) (df : DataFrame) :
  disk w !! selected_path self k s = Some f ->
  parquet_data f = inr df ->
  let call := load_sample_data self (kind_name k) (split_name s) n in
  exists l,
    run call w = Return (Some l)
    /\ heap w !! l = None
    /\ is_Some (heap (after call w) !! l)
    /\ (forall l' d, heap w !! l' = Some d -> heap (after call w) !! l' = Some d).
Proof.
  intros Hp Hf call. subst call. exists (fresh (dom (heap w))).
  unfold run, after. rewrite (load_sample_data_eval self k s n w f df Hp Hf).
  simpl.
  assert (Hfresh : heap w !! fresh (dom (heap w)) = None)
    by (apply not_elem_of_dom, is_fresh).
  split; [done|]. split; [done|]. split; [by rewrite lookup_insert_eq|].
  intros l' d Hl'. rewrite lookup_insert_ne; [done|]. congruence.
Qed.

Lemma load_sample_data_fresh_table_witness :
  exists l,
    run (load_sample_data a_loader "book" "train" 2) book_train_only = Return (Some l)
    /\ heap book_train_only !! l = None
    /\ is_Some (heap (after (load_sample_data a_loader "book" "train" 2)
                        book_train_only) !! l)
    /\ (forall l' d, heap book_train_only !! l' = Some d ->
        heap (after (load_sample_data a_loader "book" "train" 2) book_train_only) !! l'
        = Some d).
Proof.
  apply (load_sample_data_fresh_table a_loader Book Train 2 book_train_only
           (mkFile (inl "not a single file") (inr three_rows) (inl "not a CSV"))
           three_rows); reflexivity.
Defined.

(** On a path that exists, [explore_parquet_structure] never returns [None]:
    it returns the handle after printing the row-group count and the schema,
    or, when the metadata cannot be read, prints the error and then raises
    [UnboundLocalError] from its final [return]. *)
Theorem explore_parquet_structure_existing (self : DataLoader) (p : Path)
    (w : World) (f : File) :
  disk w !! p = Some f ->
  let banner := Print (nl +:+ "=== Structure de " +:+ path_name p +:+ " ===") in
  explore_parquet_structure self p w
  = match parquet_meta f with
    | inl msg =>
        (Raise (UnboundLocalError "parquet_file"),
         logged w [banner;
                   Print ("Erreur lors de la lecture des métadonnées: " +:+ msg)])
    | inr pf =>
        (Return (Some pf),
         logged w ([banner;
                    Print ("Nombre de row groups: " +:+ pretty (num_row_groups pf));
                    Print ("Schema: " +:+ schema pf)]
                   ++ if pandas_metadata pf
                      then [Print "Métadonnées pandas trouvées"] else []))
    end.
Proof.
  intros Hp banner. subst banner. unfold explore_parquet_structure.
  rewrite bind_path_exists, bool_decide_true by eauto. cbn [negb].
  rewrite bind_print.
  destruct (parquet_meta f) as [msg|pf] eqn:Hf.
  - erewrite bind_returns; cycle 1.
    { erewrite try_raises
        by (erewrite bind_raises; [done|by apply (read_with_error parquet_meta p f msg)]).
      by rewrite bind_print. }
    by rewrite logged_logged.
  - destruct (pandas_metadata pf) eqn:Hmeta.
    + erewrite bind_returns; cycle 1.
      { apply try_returns.
        erewrite bind_returns by (by apply (read_with_ok parquet_meta p f pf)).
        rewrite !bind_print, Hmeta. cbn [when]. rewrite bind_print. reflexivity. }
      by rewrite !logged_logged.
    + erewrite bind_returns; cycle 1.
      { apply try_returns.
        erewrite bind_returns by (by apply (read_with_ok parquet_meta p f pf)).
        rewrite !bind_print, Hmeta. cbn [when]. rewrite bind_ret. reflexivity. }
      by rewrite !logged_logged.
Qed.

Lemma explore_parquet_structure_existing_witness :
  let p := "raw_data/book_train.parquet" in
  let f := mkFile (inl "is a directory") (inr three_rows) (inl "not a CSV") in
  let banner := Print (nl +:+ "=== Structure de " +:+ path_name p +:+ " ===") in
  explore_parquet_structure a_loader p partitioned_book
  = match parquet_meta f with
    | inl msg =>
        (Raise (UnboundLocalError "parquet_file"),
         logged partitioned_book
           [banner; Print ("Erreur lors de la lecture des métadonnées: " +:+ msg)])
    | inr pf =>
        (Return (Some pf),
         logged partitioned_book
           ([banner;
             Print ("Nombre de row groups: " +:+ pretty (num_row_groups pf));
             Print ("Schema: " +:+ schema pf)]
            ++ if pandas_metadata pf
               then [Print "Métadonnées pandas trouvées"] else []))
    end.
Proof.
  apply (explore_parquet_structure_existing a_loader "raw_data/book_train.parquet"
           partitioned_book
           (mkFile (inl "is a directory") (inr three_rows) (inl "not a CSV"))).
  reflexivity.
Defined.

(** On a label file that exists, [load_train_targets] either returns the whole
    file as a new table, after printing its shape, or lets the reader's error
    through to the caller: the read is outside any [try]. *)
Theorem load_train_targets_existing (self : DataLoader) (w : World) (f : File) :
  disk w !! train_csv_path self = Some f ->
  let banner := Print (nl +:+ "=== Chargement des targets d'entraînement ===") in
  load_train_targets self w
  = match csv_data f with
    | inl msg => (Raise (LibraryError msg), logged w [banner])
    | inr df =>
        (Return (Some (fresh (dom (heap w)))),
         mkWorld (disk w) (<[fresh (dom (heap w)) := df]> (heap w))
           (out w ++ [banner;
                      Print ("Shape: " +:+ str_shape (df_len df) (length (cols df)))]))
    end.
Proof.
  intros Hp banner. subst banner. unfold load_train_targets.
  rewrite bind_path_exists, bool_decide_true by eauto. cbn [negb].
  rewrite bind_print.
  destruct (csv_data f) as [msg|df] eqn:Hf.
  - by erewrite bind_raises by (by apply (read_with_error csv_data _ f msg)).
  - erewrite bind_returns by (by apply (read_with_ok csv_data _ f df)).
    rewrite bind_print. unfold bind, new_frame, ret, logged. simpl.
    by rewrite <- app_assoc.
Qed.

Lemma load_train_targets_existing_witness :
  let f := mkFile (inl "not parquet") (inl "not parquet") (inr example_targets) in
  let banner := Print (nl +:+ "=== Chargement des targets d'entraînement ===") in
  load_train_targets a_loader labels_only
  = match csv_data f with
    | inl msg => (Raise (LibraryError msg), logged labels_only [banner])
    | inr df =>
        (Return (Some (fresh (dom (heap labels_only)))),
         mkWorld (disk labels_only)
           (<[fresh (dom (heap labels_only)) := df]> (heap labels_only))
           (out labels_only
            ++ [banner;
                Print ("Shape: " +:+ str_shape (df_len df) (length (cols df)))]))
    end.
Proof.
  apply (load_train_targets_existing a_loader labels_only
           (mkFile (inl "not parquet") (inl "not parquet") (inr example_targets))).
  reflexivity.
Defined.

(** [check_files_exist] prints one line per configured name, six in all and in
    the order of the list, and the status it returns has these six names for
    keys and no other. *)
Theorem check_files_exist_six_lines (self : DataLoader) (w : World) :
  out (after (check_files_exist self) w)
  = out w ++ map (status_line w) (configured_paths self)
  /\ length (configured_paths self) = 6%nat
  /\ exists files_status,
       run (check_files_exist self) w = Return files_status
       /\ dom files_status = list_to_set (configured_paths self).*1.
Proof.
  split; [|split; [done|]].
  - unfold after, check_files_exist, configured_paths, status_line.
    cbn [for_each bind path_exists print emit ret fst snd disk heap out map].
    by rewrite <- !app_assoc.
  - eexists. split; [reflexivity|].
    unfold configured_paths. cbn [fmap list_fmap fst list_to_set].
    rewrite !dom_insert_L, dom_empty_L. set_solver.
Qed.

Lemma present_Some {A} (x : A) : bool_decide (is_Some (Some x)) = true.
Proof. by apply bool_decide_eq_true. Qed.

Lemma present_None {A} : bool_decide (is_Some (@None A)) = false.
Proof. apply bool_decide_eq_false. by intros [? ?]. Qed.

(** [basic_exploration] never fails on a table: each of the three
    dataset-specific reads is behind its [in df.columns] test, so a table
    without stock_id, time_id or seconds_in_bucket, or with no column at all,
    is summarised without them.  The summary opens with the label and the
    shape. *)
Theorem basic_exploration_returns (L : PyLib) (self : DataLoader) (l : loc)
    (data_name : string) (w : World) (df : DataFrame) :
  heap w !! l = Some df ->
  run (basic_exploration L self (Some l) data_name) w = Return tt
  /\ exists evs,
       out (after (basic_exploration L self (Some l) data_name) w)
       = out w ++
         [Print (nl +:+ "=== Exploration basique - " +:+ data_name +:+ " ===");
          Print ("Shape: " +:+ str_shape (df_len df) (length (cols df)))] ++ evs.
Proof.
  intros Hl. unfold run, after, basic_exploration.
  erewrite bind_deref by eassumption. rewrite !bind_print.
  rewrite !VisualizerFacts.has_col_get_col.
  destruct (get_col "stock_id" df) as [s1|] eqn:E1;
    destruct (get_col "time_id" df) as [s2|] eqn:E2;
    destruct (get_col "seconds_in_bucket" df) as [s3|] eqn:E3;
    rewrite ?present_Some, ?(present_None (A:=list (option Q)));
    cbn [when];
    repeat py_step;
    rewrite ?logged_logged;
    (split; [reflexivity|]);
    unfold print, emit, ret, logged; simpl;
    eexists; rewrite <- ?app_assoc; simpl; reflexivity.
Qed.

Lemma basic_exploration_returns_witness :
  run (basic_exploration plain_lib a_loader (Some 0%nat) "No columns") no_columns_world
  = Return tt
  /\ exists evs,
       out (after (basic_exploration plain_lib a_loader (Some 0%nat) "No columns")
              no_columns_world)
       = out no_columns_world ++
         [Print (nl +:+ "=== Exploration basique - " +:+ "No columns" +:+ " ===");
          Print ("Shape: " +:+ str_shape (df_len (mkDF 0 [])) (length (cols (mkDF 0 []))))]
         ++ evs.
Proof.
  apply (basic_exploration_returns plain_lib a_loader 0%nat "No columns"
           no_columns_world (mkDF 0 [])).
  reflexivity.
Defined.

(** ** [main] *)

Lemma check_files_exist_eval (self : DataLoader) (w : World) :
  exists files_status,
    check_files_exist self w
    = (Return files_status, logged w (map (status_line w) (configured_paths self)))
    /\ status_get files_status "book_train"
       = bool_decide (is_Some (disk w !! book_train_path self))
    /\ status_get files_status "trade_train"
       = bool_decide (is_Some (disk w !! trade_train_path self)).
Proof.
  eexists. split; [|split].
  - unfold check_files_exist, configured_paths, status_line, logged.
    cbn [for_each bind path_exists print emit ret fst snd disk heap out map].
    by rewrite <- !app_assoc.
  - unfold status_get. by simplify_map_eq.
  - unfold status_get. by simplify_map_eq.
Qed.

Lemma load_sample_data_missing (self : DataLoader) k s n w :
  disk w !! selected_path self k s = None ->
  load_sample_data self (kind_name k) (split_name s) n w
  = (Return None, logged w [not_found (selected_path self k s)]).
Proof.
  intros Hp. unfold load_sample_data.
  rewrite file_selected, bind_ret, bind_path_exists, Hp, present_None.
  cbn [negb]. by rewrite bind_print.
Qed.

Lemma load_train_targets_missing (self : DataLoader) w :
  disk w !! train_csv_path self = None ->
  load_train_targets self w
  = (Return None,
     logged w [Print ("Fichier train.csv non trouvé: " +:+ train_csv_path self)]).
Proof.
  intros Hp. unfold load_train_targets.
  rewrite bind_path_exists, Hp, present_None. cbn [negb]. by rewrite bind_print.
Qed.

(** Without the two training parquet files and the label file, [main] runs to
    its end: it returns the loader with three absent samples, makes no table,
    and the console shows the six status lines and one not-found line per
    dataset. *)
Theorem main_without_data (L : PyLib) (w : World) :
  disk w !! book_train_path default_loader = None ->
  disk w !! trade_train_path default_loader = None ->
  disk w !! train_csv_path default_loader = None ->
  main L w
  = (Return (default_loader, None, None, None),
     logged w
       ([Print ("=== EXPLORATION INITIALE DES DONNÉES OPTIVER ===" +:+ nl);
         Print "1. Vérification des fichiers disponibles:"]
        ++ map (status_line w) (configured_paths default_loader)
        ++ [Print (nl +:+ "2. Exploration de la structure des fichiers:");
            Print (nl +:+ "3. Exploration des données book:");
            not_found (book_train_path default_loader);
            Print (nl +:+ "4. Exploration des données trade:");
            not_found (trade_train_path default_loader);
            Print (nl +:+ "5. Exploration des targets:");
            Print ("Fichier train.csv non trouvé: " +:+ train_csv_path default_loader);
            Print (nl +:+ "=== EXPLORATION TERMINÉE ===")])).
Proof.
  intros Hbook Htrade Hcsv. unfold main. cbv zeta.
  rewrite !bind_print.
  match goal with
  | |- bind (check_files_exist _) _ ?w0 = _ =>
      destruct (check_files_exist_eval default_loader w0) as (m & Hm & Hb & Ht)
  end.
  erewrite bind_returns by exact Hm.
  rewrite bind_print, Hb, Ht, !disk_logged, Hbook, Htrade, !present_None.
  rewrite !bind_ret, bind_print.
  erewrite bind_returns
    by (apply (load_sample_data_missing default_loader Book Train);
        by rewrite !disk_logged).
  rewrite present_None. cbn [when]. rewrite bind_ret, bind_print.
  erewrite bind_returns
    by (apply (load_sample_data_missing default_loader Trade Train);
        by rewrite !disk_logged).
  rewrite present_None. cbn [when]. rewrite bind_ret, bind_print.
  erewrite bind_returns
    by (apply load_train_targets_missing; by rewrite !disk_logged).
  rewrite present_None. cbn [when]. rewrite bind_ret, bind_print.
  unfold ret. by rewrite !logged_logged.
Qed.

Lemma main_without_data_witness :
  main plain_lib empty_world
  = (Return (default_loader, None, None, None),
     logged empty_world
       ([Print ("=== EXPLORATION INITIALE DES DONNÉES OPTIVER ===" +:+ nl);
         Print "1. Vérification des fichiers disponibles:"]
        ++ map (status_line empty_world) (configured_paths default_loader)
        ++ [Print (nl +:+ "2. Exploration de la structure des fichiers:");
            Print (nl +:+ "3. Exploration des données book:");
            not_found (book_train_path default_loader);
            Print (nl +:+ "4. Exploration des données trade:");
            not_found (trade_train_path default_loader);
            Print (nl +:+ "5. Exploration des targets:");
            Print ("Fichier train.csv non trouvé: " +:+ train_csv_path default_loader);
            Print (nl +:+ "=== EXPLORATION TERMINÉE ===")])).
Proof. apply (main_without_data plain_lib empty_world); reflexivity. Defined.

(** A training book file that exists but whose metadata [pq.ParquetFile]
    cannot read stops [main] at its second step: the [UnboundLocalError] of
    [explore_parquet_structure] reaches the caller of [main], before any
    sample is loaded. *)
Theorem main_stops_on_unreadable_metadata (L : PyLib) (w : World) (f : File)
    (msg : string) :
  disk w !! book_train_path default_loader = Some f ->
  parquet_meta f = inl msg ->
  run (main L) w = Raise (UnboundLocalError "parquet_file")
  /\ heap (after (main L) w) = heap w
  /\ last (out (after (main L) w))
     = Some (Print ("Erreur lors de la lecture des métadonnées: " +:+ msg)).
Proof.
  intros Hbook Hmeta. unfold run, after, main. cbv zeta.
  rewrite !bind_print.
  match goal with
  | |- context [bind (check_files_exist _) _ ?w0] =>
      destruct (check_files_exist_eval default_loader w0) as (m & Hm & Hb & Ht)
  end.
  erewrite bind_returns by exact Hm.
  rewrite bind_print, Hb, !disk_logged, Hbook, present_Some.
  rewrite bind_bind.
  erewrite bind_raises; cycle 1.
  { erewrite explore_parquet_structure_existing by (rewrite !disk_logged; exact Hbook).
    rewrite Hmeta. reflexivity. }
  rewrite !logged_logged. simpl. split; [done|]. split; [done|].
  by rewrite last_app.
Qed.

Lemma main_stops_on_unreadable_metadata_witness :
  run (main plain_lib) partitioned_book = Raise (UnboundLocalError "parquet_file")
  /\ heap (after (main plain_lib) partitioned_book) = heap partitioned_book
  /\ last (out (after (main plain_lib) partitioned_book))
     = Some (Print ("Erreur lors de la lecture des métadonnées: " +:+ "is a directory")).
Proof.
  apply (main_stops_on_unreadable_metadata plain_lib partitioned_book
           (mkFile (inl "is a directory") (inr three_rows) (inl "not a CSV"))
           "is a directory"); reflexivity.
Defined.

(** With no training parquet file and a label file that reads, [main] returns
    the labels as its only table: the whole file, which it has summarised
    under the name Train Targets. *)
Theorem main_with_labels_only (L : PyLib) (w : World) (f : File) (df : DataFrame) :
  disk w !! book_train_path default_loader = None ->
  disk w !! trade_train_path default_loader = None ->
  disk w !! train_csv_path default_loader = Some f ->
  csv_data f = inr df ->
  exists l,
    run (main L) w = Return (default_loader, None, None, Some l)
    /\ heap w !! l = None
    /\ heap (after (main L) w) = <[l := df]> (heap w)
    /\ Print (nl +:+ "=== Exploration basique - Train Targets ===")
       ∈ out (after (main L) w).
Proof.
  intros Hbook Htrade Hcsv Hdf. exists (fresh (dom (heap w))).
  unfold run, after, main. cbv zeta.
  rewrite !bind_print.
  match goal with
  | |- context [bind (check_files_exist _) _ ?w0] =>
      destruct (check_files_exist_eval default_loader w0) as (m & Hm & Hb & Ht)
  end.
  erewrite bind_returns by exact Hm.
  rewrite bind_print, Hb, Ht, !disk_logged, Hbook, Htrade, !present_None.
  rewrite !bind_ret, bind_print.
  erewrite bind_returns
    by (apply (load_sample_data_missing default_loader Book Train);
        by rewrite !disk_logged).
  rewrite present_None. cbn [when]. rewrite bind_ret, bind_print.
  erewrite bind_returns
    by (apply (load_sample_data_missing default_loader Trade Train);
        by rewrite !disk_logged).
  rewrite present_None. cbn [when]. rewrite bind_ret, bind_print.
  erewrite bind_returns; cycle 1.
  { erewrite load_train_targets_existing by (rewrite !disk_logged; exact Hcsv).
    rewrite Hdf. reflexivity. }
  rewrite present_Some. cbn [when heap logged].
  match goal with
  | |- context [bind (basic_exploration L ?ld (Some ?l) ?name) ?k ?w0] =>
      pose proof (basic_exploration_returns L ld l name w0 df
                    ltac:(apply lookup_insert_eq)) as [Hrun (evs & Hout)];
      pose proof (VisualizerFacts.basic_exploration_pure L ld (Some l) name w0)
        as [Hheap _];
      unfold run, after in Hrun, Hout, Hheap;
      destruct (basic_exploration L ld (Some l) name w0) as [o w1] eqn:Hbe;
      simpl in Hrun, Hout, Hheap; subst o;
      rewrite (bind_returns k w0 _ tt w1 Hbe)
  end.
  rewrite bind_print. simpl.
  split; [done|]. split; [apply not_elem_of_dom, is_fresh|].
  split; [done|].
  rewrite Hout. apply elem_of_app. left. apply elem_of_app. right.
  apply list_elem_of_here.
Qed.

Lemma main_with_labels_only_witness :
  exists l,
    run (main plain_lib) labels_only = Return (default_loader, None, None, Some l)
    /\ heap labels_only !! l = None
    /\ heap (after (main plain_lib) labels_only) = <[l := example_targets]> (heap labels_only)
    /\ Print (nl +:+ "=== Exploration basique - Train Targets ===")
       ∈ out (after (main plain_lib) labels_only).
Proof.
  apply (main_with_labels_only plain_lib labels_only
           (mkFile (inl "not parquet") (inl "not parquet") (inr example_targets))
           example_targets); reflexivity.
Defined.

Lemma path_name_from_join (d name acc : string) :
  path_name_from acc (d +:+ "/" +:+ name) = path_name_from String.EmptyString name.
Proof.
  revert acc. induction d as [|c d IH]; intros acc; simpl; [done|].
  destruct (Ascii.eqb c "/"); apply IH.
Qed.

(** Whatever the data directory, the names the banners show are the six file
    names alone: [path.name] of a configured path drops the directory. *)
Theorem configured_file_names (data_path : Path) :
  map (fun entry => path_name entry.2) (configured_paths (init data_path))
  = ["book_train.parquet"; "book_test.parquet"; "trade_train.parquet";
     "trade_test.parquet"; "train.csv"; "test.csv"].
Proof.
  cbv [configured_paths init book_train_path book_test_path trade_train_path
       trade_test_path train_csv_path test_csv_path path_name path_join map snd].
  by rewrite !path_name_from_join.
Qed.

End LoaderMore.

(** * A program logic for the visualiser *)

Section Post.
Context {A : Type} (w : World) (Q : Outcome A -> World -> Prop).

Lemma post_ret (a : A) : Q (Return a) w -> post (ret a) w Q.
Proof. done. Qed.

Lemma post_raise (e : Exn) : Q (Raise e) w -> post (raise e) w Q.
Proof. done. Qed.

Lemma post_bind {B} (m : Py B) (k : B -> Py A) :
  post m w (fun o w' =>
              match o with
              | Return b => post (k b) w' Q
              | Raise e => Q (Raise e) w'
              end) ->
  post (bind m k) w Q.
Proof. unfold post, bind. by destruct (m w) as [[b|e] w']. Qed.

Lemma post_consequence (m : Py A) (P : Outcome A -> World -> Prop) :
  post m w P -> (forall o w', P o w' -> Q o w') -> post m w Q.
Proof. unfold post. auto. Qed.

Lemma post_keeps (R : World -> World -> Prop) (m : Py A) :
  keeps R m -> (forall o w', R w w' -> Q o w') -> post m w Q.
Proof. intros Hk HQ. apply HQ, Hk. Qed.

End Post.

Section PostPrimitives.
Context (w : World).

Lemma post_emit (e : Event) (Q : Outcome unit -> World -> Prop) :
  Q (Return tt) (logged w [e]) -> post (emit e) w Q.
Proof. done. Qed.

Lemma post_print (s : string) (Q : Outcome unit -> World -> Prop) :
  Q (Return tt) (logged w [Print s]) -> post (print s) w Q.
Proof. done. Qed.

Lemma post_when (c : bool) (body : Py unit) (Q : Outcome unit -> World -> Prop) :
  (if c then post body w Q else Q (Return tt) w) -> post (when c body) w Q.
Proof. by destruct c. Qed.

Lemma post_deref (l : loc) (df : DataFrame) (Q : Outcome DataFrame -> World -> Prop) :
  heap w !! l = Some df -> Q (Return df) w -> post (deref l) w Q.
Proof. intros Hl HQ. unfold post, deref. by rewrite Hl. Qed.

Lemma post_deref_dangling (l : loc) (Q : Outcome DataFrame -> World -> Prop) :
  heap w !! l = None -> Q (Raise (DanglingRef l)) w -> post (deref l) w Q.
Proof. intros Hl HQ. unfold post, deref. by rewrite Hl. Qed.

Lemma post_column (df : DataFrame) (name : string)
    (Q : Outcome Series -> World -> Prop) :
  match get_col name df with
  | Some s => Q (Return s) w
  | None => Q (Raise (KeyError name)) w
  end ->
  post (column df name) w Q.
Proof. unfold post, column. by destruct (get_col name df). Qed.

Lemma post_getitem (l : loc) (df : DataFrame) (name : string)
    (Q : Outcome Series -> World -> Prop) :
  heap w !! l = Some df ->
  match get_col name df with
  | Some s => Q (Return s) w
  | None => Q (Raise (KeyError name)) w
  end ->
  post (getitem l name) w Q.
Proof.
  intros Hl HQ. unfold getitem. apply post_bind.
  apply (post_deref l df); [done|]. by apply post_column.
Qed.

Lemma post_setitem (l : loc) (df : DataFrame) (name : string) (s : Series)
    (Q : Outcome unit -> World -> Prop) :
  heap w !! l = Some df ->
  Q (Return tt) (mkWorld (disk w) (<[l := set_col name s df]> (heap w)) (out w)) ->
  post (setitem l name s) w Q.
Proof. intros Hl HQ. unfold post, setitem, update. by rewrite Hl. Qed.

Lemma post_iloc0 (s : Series) (Q : Outcome Cell -> World -> Prop) :
  match s with
  | c :: _ => Q (Return c) w
  | [] => Q (Raise (IndexError "single positional indexer is out-of-bounds")) w
  end ->
  post (iloc0 s) w Q.
Proof. unfold post, iloc0. by destruct s. Qed.

End PostPrimitives.

(** * More on the visualiser *)

Module VisualizerMore.
Import Visualizer VisualizerFacts.

Lemma assoc_get_map (g : Series -> Series) name (l : list (string * Series)) :
  assoc_get name (map (fun c => (c.1, g c.2)) l) = g <$> assoc_get name l.
Proof.
  induction l as [|[k v] l IH]; simpl; [done|].
  by destruct (decide (k = name)).
Qed.

(** Selecting rows keeps the columns. *)
Lemma get_col_head_where name n m df :
  get_col name (df_head n (df_where m df))
  = (fun c => take (slice_len (df_len (df_where m df)) n) (mask_filter m c))
    <$> get_col name df.
Proof.
  unfold get_col, df_head. cbn [cols df_where].
  rewrite (assoc_get_map (take _)), (assoc_get_map (mask_filter m)).
  by destruct (assoc_get name (cols df)).
Qed.

Ltac heap_side :=
  cbn [heap disk out logged];
  repeat match goal with
         | H : heap ?w' = _ |- context [heap ?w'] =>
             rewrite H; cbn [heap disk out logged]
         end;
  first [eassumption | apply lookup_insert_eq].

(** Brings a column lookup to a known fact, or splits on it. *)
Ltac col_side :=
  repeat first
    [ rewrite get_col_head_where
    | rewrite get_col_set_col_eq
    | rewrite get_col_set_col_ne by done
    | rewrite has_col_get_col
    | match goal with
      | H : get_col ?n ?d = _ |- context [get_col ?n ?d] => rewrite H
      end
    | match goal with
      | |- context [get_col ?n ?d] =>
          let E := fresh "E" in destruct (get_col n d) eqn:E
      end ];
  rewrite ?LoaderMore.present_Some, ?(LoaderMore.present_None (A:=list (option Q)));
  cbn [fmap option_fmap option_map negb].

(** One statement of a computation, under [post]. *)
Ltac wp_step :=
  cbv beta iota zeta;
  lazymatch goal with
  | |- post (bind _ _) _ _ => apply post_bind
  | |- post (ret _) _ _ => apply post_ret
  | |- post (raise _) _ _ => apply post_raise
  | |- post (emit _) _ _ => apply post_emit
  | |- post (print _) _ _ => apply post_print
  | |- post (deref ?l) ?w0 _ =>
      first [ eapply post_deref; [heap_side|]
            | apply post_deref_dangling; [heap_side|]
            | let E := fresh "E" in
              destruct (heap w0 !! l) eqn:E; cbn [heap disk out logged] in E ]
  | |- post (match ?o with Some _ => _ | None => _ end) _ _ => destruct o
  | |- post (getitem _ _) _ _ => eapply post_getitem; [heap_side|col_side]
  | |- post (column _ _) _ _ => apply post_column; col_side
  | |- post (setitem _ _ _) _ _ => eapply post_setitem; [heap_side|]
  | |- post (iloc0 _) _ _ => apply post_iloc0
  | |- post (when _ _) _ _ => apply post_when
  | |- post (if ?c then _ else _) _ _ =>
      first [progress col_side | let E := fresh "E" in destruct c eqn:E]
  | |- if ?c then _ else _ =>
      first [progress col_side | let E := fresh "E" in destruct c eqn:E]
  | |- match ?s with nil => _ | cons _ _ => _ end => destruct s
  end.

(** The events of a leaf are known one by one. *)
Ltac known_events :=
  eexists; split; [cbn [out logged]; rewrite <- ?app_assoc; reflexivity|];
  cbn [app]; split;
  [ split;
    [ first [ done
            | intros H;
              repeat (apply elem_of_cons in H as [H|H]; [discriminate|]);
              by apply elem_of_nil in H ]
    | first [ discriminate
            | intros _;
              repeat first [apply list_elem_of_here | apply list_elem_of_further] ] ]
  | reflexivity ].

(** Brings the tests on columns of a leaf to the facts at hand. *)
Ltac known_columns :=
  try match goal with
      | H : (0 <? series_nunique [])%nat = true |- _ => by vm_compute in H
      end;
  unfold first_missing, has_stocks; cbn [List.find];
  repeat (col_side; cbn [negb]);
  repeat match goal with
         | H : (0 <? series_nunique _)%nat = _ |- _ => rewrite H
         end.

(** [plot_book_analysis] comes back from a table exactly when the table has
    the five columns it reads without a test; stock_id and time_id may be
    there or not, and a stock_id column with no value in it is passed over.
    The figure is shown exactly when it comes back, and in no case is a line
    printed. *)
Theorem plot_book_analysis_returns_iff (L : PyLib) (l : loc) (w : World)
    (df : DataFrame) :
  heap w !! l = Some df ->
  (run (plot_book_analysis L (Some l)) w = Return tt
   <-> first_missing ["ask_price1"; "bid_price1"; "bid_size1"; "ask_size1";
                      "seconds_in_bucket"] df = None)
  /\ exists evs,
       out (after (plot_book_analysis L (Some l)) w) = out w ++ evs
       /\ (Show ∈ evs <-> run (plot_book_analysis L (Some l)) w = Return tt)
       /\ notices evs = [].
Proof.
  intros Hl.
  change (post (plot_book_analysis L (Some l)) w
            (fun o w' =>
               (o = Return tt
                <-> first_missing ["ask_price1"; "bid_price1"; "bid_size1";
                                   "ask_size1"; "seconds_in_bucket"] df = None)
               /\ exists evs,
                    out w' = out w ++ evs
                    /\ (Show ∈ evs <-> o = Return tt)
                    /\ notices evs = [])).
  unfold plot_book_analysis.
  repeat wp_step; known_columns;
    (split; [first [done | split; first [done | congruence]]|known_events]).
Qed.

Lemma plot_book_analysis_returns_iff_witness :
  (run (plot_book_analysis plain_lib (Some 0%nat)) book_world = Return tt
   <-> first_missing ["ask_price1"; "bid_price1"; "bid_size1"; "ask_size1";
                      "seconds_in_bucket"] one_row_book = None)
  /\ exists evs,
       out (after (plot_book_analysis plain_lib (Some 0%nat)) book_world)
       = out book_world ++ evs
       /\ (Show ∈ evs
           <-> run (plot_book_analysis plain_lib (Some 0%nat)) book_world = Return tt)
       /\ notices evs = [].
Proof.
  apply (plot_book_analysis_returns_iff plain_lib 0%nat book_world one_row_book).
  reflexivity.
Defined.

(** [plot_trade_analysis] comes back from a table exactly when the table has
    size, order_count and price and, if it has a stock to sample, also
    seconds_in_bucket, which only the sample panel reads.  The figure is shown
    exactly when it comes back, and in no case is a line printed. *)
Theorem plot_trade_analysis_returns_iff (L : PyLib) (l : loc) (w : World)
    (df : DataFrame) :
  heap w !! l = Some df ->
  (run (plot_trade_analysis L (Some l)) w = Return tt
   <-> first_missing ["size"; "order_count"; "price"] df = None
       /\ (has_stocks df = true -> is_Some (get_col "seconds_in_bucket" df)))
  /\ exists evs,
       out (after (plot_trade_analysis L (Some l)) w) = out w ++ evs
       /\ (Show ∈ evs <-> run (plot_trade_analysis L (Some l)) w = Return tt)
       /\ notices evs = [].
Proof.
  intros Hl.
  change (post (plot_trade_analysis L (Some l)) w
            (fun o w' =>
               (o = Return tt
                <-> first_missing ["size"; "order_count"; "price"] df = None
                    /\ (has_stocks df = true
                        -> is_Some (get_col "seconds_in_bucket" df)))
               /\ exists evs,
                    out w' = out w ++ evs
                    /\ (Show ∈ evs <-> o = Return tt)
                    /\ notices evs = [])).
  unfold plot_trade_analysis.
  repeat wp_step; known_columns;
    (split;
       [split;
          [first [done | intros _; split; [done|by eauto]]
          |first [done
                 | intros [Hm Hs];
                   first [discriminate
                         | by destruct (is_Some_None (Hs eq_refl))]]]
       |known_events]).
Qed.

Lemma plot_trade_analysis_returns_iff_witness :
  (run (plot_trade_analysis plain_lib (Some 1%nat)) incomplete_world = Return tt
   <-> first_missing ["size"; "order_count"; "price"] trade_without_size = None
       /\ (has_stocks trade_without_size = true
           -> is_Some (get_col "seconds_in_bucket" trade_without_size)))
  /\ exists evs,
       out (after (plot_trade_analysis plain_lib (Some 1%nat)) incomplete_world)
       = out incomplete_world ++ evs
       /\ (Show ∈ evs
           <-> run (plot_trade_analysis plain_lib (Some 1%nat)) incomplete_world
               = Return tt)
       /\ notices evs = [].
Proof.
  apply (plot_trade_analysis_returns_iff plain_lib 1%nat incomplete_world
           trade_without_size).
  reflexivity.
Defined.

(** On a table that has the target column, [plot_target_distribution] comes
    back exactly when the table also has stock_id and time_id; the figure is
    shown exactly then, and nothing is printed either way. *)
Theorem plot_target_distribution_returns_iff (L : PyLib) (l : loc) (w : World)
    (df : DataFrame) :
  heap w !! l = Some df ->
  is_Some (get_col "target" df) ->
  (run (plot_target_distribution L (Some l)) w = Return tt
   <-> first_missing ["stock_id"; "time_id"] df = None)
  /\ exists evs,
       out (after (plot_target_distribution L (Some l)) w) = out w ++ evs
       /\ (Show ∈ evs <-> run (plot_target_distribution L (Some l)) w = Return tt)
       /\ notices evs = [].
Proof.
  intros Hl [t Ht].
  change (post (plot_target_distribution L (Some l)) w
            (fun o w' =>
               (o = Return tt <-> first_missing ["stock_id"; "time_id"] df = None)
               /\ exists evs,
                    out w' = out w ++ evs
                    /\ (Show ∈ evs <-> o = Return tt)
                    /\ notices evs = [])).
  unfold plot_target_distribution.
  repeat wp_step; known_columns;
    (split; [first [done | split; first [done | congruence]]|known_events]).
Qed.

Lemma plot_target_distribution_returns_iff_witness :
  (run (plot_target_distribution plain_lib (Some 0%nat)) targets_world = Return tt
   <-> first_missing ["stock_id"; "time_id"] example_targets = None)
  /\ exists evs,
       out (after (plot_target_distribution plain_lib (Some 0%nat)) targets_world)
       = out targets_world ++ evs
       /\ (Show ∈ evs
           <-> run (plot_target_distribution plain_lib (Some 0%nat)) targets_world
               = Return tt)
       /\ notices evs = [].
Proof.
  apply (plot_target_distribution_returns_iff plain_lib 0%nat targets_world
           example_targets); [reflexivity|by eexists].
Defined.

(** ** The report *)

Lemma report_ready_match w o names :
  report_ready w o names
  <-> match o with
      | None => True
      | Some l =>
          match heap w !! l with
          | Some df => first_missing names df = None
          | None => False
          end
      end.
Proof.
  unfold report_ready. destruct o as [l|]; [|done].
  destruct (heap w !! l) as [df|] eqn:Hl.
  - split; [intros (df' & Hl' & Hm); congruence|intros Hm; by exists df].
  - split; [intros (df & ? & _); congruence|done].
Qed.

Lemma first_missing_None names df :
  first_missing names df = None
  <-> Forall (fun c => is_Some (get_col c df)) names.
Proof.
  unfold first_missing. induction names as [|c names IH]; simpl.
  - split; [constructor|done].
  - case_bool_decide as Hc; simpl.
    + rewrite IH. split; [by constructor|by inversion 1].
    + split; [done|]. by inversion 1.
Qed.

(** Settles a leaf of the report: the outcome against the columns known to
    be there and the one known to be missing. *)
Ltac report_leaf :=
  repeat match goal with
         | H : heap _ !! _ = _ |- _ => rewrite H
         end;
  rewrite ?first_missing_None;
  split;
  [ first [ discriminate
          | intros _; repeat split; repeat constructor; eauto ]
  | first [ done
          | intros Hall; exfalso;
            repeat match goal with
                   | H : _ /\ _ |- _ => destruct H
                   | H : False |- _ => destruct H
                   | H : Forall _ (_ :: _) |- _ => apply Forall_cons in H as [? ?]
                   | H : is_Some (get_col ?c ?d), E : get_col ?c ?d = None |- _ =>
                       rewrite E in H; by destruct H
                   end ] ].

(** [generate_summary_report] comes back exactly when every dataset it is
    given is absent or has the columns its section reads: stock_id, time_id,
    target for the targets; stock_id, seconds_in_bucket, ask_price1,
    bid_price1 for the book; stock_id, size, order_count for the trades (the
    price column is not read). *)
Theorem generate_summary_report_returns_iff (L : PyLib) (loader : Loader.DataLoader)
    (book trade target : option loc) (w : World) :
  run (generate_summary_report L loader book trade target) w = Return tt
  <-> report_ready w target ["stock_id"; "time_id"; "target"]
      /\ report_ready w book ["stock_id"; "seconds_in_bucket"; "ask_price1"; "bid_price1"]
      /\ report_ready w trade ["stock_id"; "size"; "order_count"].
Proof.
  rewrite !report_ready_match.
  match goal with
  | |- run ?m w = Return tt <-> ?R1 /\ ?R2 /\ ?R3 =>
      set (r1 := R1); set (r2 := R2); set (r3 := R3);
      change (post m w (fun o _ => o = Return tt <-> r1 /\ r2 /\ r3))
  end.
  unfold generate_summary_report.
  do 14 wp_step.
  (* the targets *)
  apply post_bind.
  apply (post_consequence _ _ _
           (fun o w' => (exists evs, w' = logged w evs) /\ (o = Return tt <-> r1))).
  { subst r1. repeat wp_step;
      (split; [rewrite ?logged_logged; by eexists|report_leaf]). }
  intros [[]|e] w1 [[evs1 ->] Hr1]; [|split; [done|intros [? _]; by apply Hr1]].
  assert (Hr1' : r1) by (by apply Hr1). clear Hr1.
  (* the book *)
  apply post_bind.
  apply (post_consequence _ _ _
           (fun o w' => (exists evs, w' = logged w evs) /\ (o = Return tt <-> r2))).
  { subst r2. repeat wp_step;
      (split; [rewrite ?logged_logged; by eexists|report_leaf]). }
  intros [[]|e] w2 [[evs2 ->] Hr2]; [|split; [done|intros (_ & ? & _); by apply Hr2]].
  assert (Hr2' : r2) by (by apply Hr2). clear Hr2.
  (* the trades *)
  apply post_bind.
  apply (post_consequence _ _ _
           (fun o w' => (exists evs, w' = logged w evs) /\ (o = Return tt <-> r3))).
  { subst r3. repeat wp_step;
      (split; [rewrite ?logged_logged; by eexists|report_leaf]). }
  intros [[]|e] w3 [[evs3 ->] Hr3]; [|split; [done|intros (_ & _ & ?); by apply Hr3]].
  assert (Hr3' : r3) by (by apply Hr3). clear Hr3.
  repeat wp_step. done.
Qed.

(** The availability lines of the report come before any table is read: they
    are printed, with a mark for each dataset that is not [None], even when
    the report then fails on a missing column. *)
Theorem generate_summary_report_header (L : PyLib) (loader : Loader.DataLoader)
    (book trade target : option loc) (w : World) :
  exists rest,
    out (after (generate_summary_report L loader book trade target) w)
    = out w ++
      [Print (nl +:+ rule);
       Print "RAPPORT DE SYNTHÈSE - DONNÉES OPTIVER";
       Print rule;
       Print (nl +:+ "📊 APERÇU GÉNÉRAL:");
       Print ("   • Données book disponibles: "
              +:+ match book with Some _ => "✓" | None => "✗" end);
       Print ("   • Données trade disponibles: "
              +:+ match trade with Some _ => "✓" | None => "✗" end);
       Print ("   • Données target disponibles: "
              +:+ match target with Some _ => "✓" | None => "✗" end)]
      ++ rest.
Proof.
  unfold after, generate_summary_report.
  rewrite !bind_print, !logged_logged.
  match goal with
  | |- context [(?m ?w0).2] =>
      change ((m w0).2) with (after m w0);
      assert (Hk : keeps more_output m) by repeat (cbv zeta; keeps_step);
      destruct (Hk w0) as [evs Hevs]
  end.
  exists evs. rewrite Hevs. simpl. by rewrite <- !app_assoc.
Qed.

(** ** [visualize_data] *)

Lemma plot_book_analysis_missing (L : PyLib) (l : loc) (w : World) (df : DataFrame) c :
  heap w !! l = Some df ->
  first_missing ["ask_price1"; "bid_price1"] df = Some c ->
  plot_book_analysis L (Some l) w
  = (Raise (KeyError c),
     logged w [Subplots 2 3; Suptitle "Analyse du Carnet d'Ordres (Order Book)"]).
Proof.
  intros Hl Hc.
  split_missing Hc; try discriminate; injection Hc as <-; unfold plot_book_analysis;
    repeat py_step; by rewrite ?logged_logged.
Qed.

(** A book table without ask_price1 or bid_price1 ends [visualize_data] at its
    second step: the [KeyError] of [plot_book_analysis] goes through, so the
    trades are not analysed and the report is never generated. *)
Theorem visualize_data_stops_at_book (L : PyLib) (loader : Loader.DataLoader)
    (lb : loc) (trade : option loc) (w : World) (book : DataFrame) (c : string) :
  heap w !! lb = Some book ->
  first_missing ["ask_price1"; "bid_price1"] book = Some c ->
  visualize_data L loader (Some lb) trade None w
  = (Raise (KeyError c),
     logged w [Print ("=== GÉNÉRATION DES VISUALISATIONS ===" +:+ nl);
               Print "2. Analyse du carnet d'ordres...";
               Subplots 2 3;
               Suptitle "Analyse du Carnet d'Ordres (Order Book)"]).
Proof.
  intros Hl Hc. unfold visualize_data.
  rewrite bind_print, (LoaderMore.present_None (A:=nat)), LoaderMore.present_Some.
  cbn [when]. rewrite bind_ret, bind_bind, bind_print.
  erewrite bind_raises
    by (by apply (plot_book_analysis_missing L lb _ book c)).
  by rewrite !logged_logged.
Qed.

Lemma visualize_data_stops_at_book_witness :
  visualize_data plain_lib a_loader (Some 0%nat) (Some 1%nat) None incomplete_world
  = (Raise (KeyError "ask_price1"),
     logged incomplete_world
       [Print ("=== GÉNÉRATION DES VISUALISATIONS ===" +:+ nl);
        Print "2. Analyse du carnet d'ordres...";
        Subplots 2 3;
        Suptitle "Analyse du Carnet d'Ordres (Order Book)"]).
Proof.
  apply (visualize_data_stops_at_book plain_lib a_loader 0%nat (Some 1%nat)
           incomplete_world book_without_ask "ask_price1"); reflexivity.
Defined.

(** A target table without its target column does not stop at the notice of
    [plot_target_distribution]: [visualize_data] goes on to the report, which
    reads the table without a test and raises [KeyError] for the first of
    stock_id, time_id, target that is missing.  Nothing is drawn. *)
Theorem visualize_data_notice_then_error (L : PyLib) (loader : Loader.DataLoader)
    (l : loc) (w : World) (df : DataFrame) :
  heap w !! l = Some df ->
  get_col "target" df = None ->
  exists c evs,
    first_missing ["stock_id"; "time_id"; "target"] df = Some c
    /\ run (visualize_data L loader None None (Some l)) w = Raise (KeyError c)
    /\ out (after (visualize_data L loader None None (Some l)) w)
       = out w ++
         [Print ("=== GÉNÉRATION DES VISUALISATIONS ===" +:+ nl);
          Print "1. Analyse des targets...";
          Print "Pas de données targets disponibles";
          Print "4. Génération du rapport de synthèse..."] ++ evs
    /\ renderings evs = [].
Proof.
  intros Hl Ht.
  change (post (visualize_data L loader None None (Some l)) w
            (fun o w' =>
               exists c evs,
                 first_missing ["stock_id"; "time_id"; "target"] df = Some c
                 /\ o = Raise (KeyError c)
                 /\ out w' = out w ++
                      [Print ("=== GÉNÉRATION DES VISUALISATIONS ===" +:+ nl);
                       Print "1. Analyse des targets...";
                       Print "Pas de données targets disponibles";
                       Print "4. Génération du rapport de synthèse..."] ++ evs
                 /\ renderings evs = [])).
  unfold visualize_data, plot_target_distribution, generate_summary_report.
  rewrite !(LoaderMore.present_None (A:=nat)), LoaderMore.present_Some.
  repeat wp_step;
    (eexists _, _; split; [by known_columns|]; split; [reflexivity|];
     split; [cbn [out logged]; rewrite <- ?app_assoc; reflexivity|reflexivity]).
Qed.

Lemma visualize_data_notice_then_error_witness :
  exists c evs,
    first_missing ["stock_id"; "time_id"; "target"] targets_without_target = Some c
    /\ run (visualize_data plain_lib a_loader None None (Some 0%nat)) unlabelled_world
       = Raise (KeyError c)
    /\ out (after (visualize_data plain_lib a_loader None None (Some 0%nat))
              unlabelled_world)
       = out unlabelled_world ++
         [Print ("=== GÉNÉRATION DES VISUALISATIONS ===" +:+ nl);
          Print "1. Analyse des targets...";
          Print "Pas de données targets disponibles";
          Print "4. Génération du rapport de synthèse..."] ++ evs
    /\ renderings evs = [].
Proof.
  apply (visualize_data_notice_then_error plain_lib a_loader 0%nat unlabelled_world
           targets_without_target); reflexivity.
Defined.

(** ** The write of [plot_book_analysis], again *)

Lemma assoc_set_idem name s l :
  assoc_set name s (assoc_set name s l) = assoc_set name s l.
Proof.
  induction l as [|[k v] l IH]; simpl.
  - by rewrite decide_True.
  - destruct (decide (k = name)) as [->|Hk]; simpl.
    + by rewrite decide_True.
    + by rewrite decide_False, IH.
Qed.

(** Running [plot_book_analysis] a second time on the same table writes the
    same spread over the one of the first run: the heap stays as the first
    run left it, with one spread_1 column and no more. *)
Theorem plot_book_analysis_twice (L : PyLib) (l : loc) (w : World)
    (df : DataFrame) (ask bid : Series) :
  heap w !! l = Some df ->
  get_col "ask_price1" df = Some ask ->
  get_col "bid_price1" df = Some bid ->
  let once := after (plot_book_analysis L (Some l)) w in
  heap (after (plot_book_analysis L (Some l)) once) = heap once.
Proof.
  intros Hl Hask Hbid once.
  destruct (plot_book_analysis_heap L l w df ask bid Hl Hask Hbid) as [H1 _].
  fold once in H1.
  set (df' := set_col "spread_1" (series_sub ask bid) df) in *.
  assert (Hl' : heap once !! l = Some df') by (by rewrite H1, lookup_insert_eq).
  assert (Hask' : get_col "ask_price1" df' = Some ask)
    by (subst df'; by rewrite get_col_set_col_ne).
  assert (Hbid' : get_col "bid_price1" df' = Some bid)
    by (subst df'; by rewrite get_col_set_col_ne).
  destruct (plot_book_analysis_heap L l once df' ask bid Hl' Hask' Hbid') as [H2 _].
  rewrite H2, H1, insert_insert_eq. f_equal.
  subst df'. unfold set_col. simpl. by rewrite assoc_set_idem.
Qed.

Lemma plot_book_analysis_twice_witness :
  let once := after (plot_book_analysis plain_lib (Some 0%nat)) book_world in
  heap (after (plot_book_analysis plain_lib (Some 0%nat)) once) = heap once.
Proof.
  apply (plot_book_analysis_twice plain_lib 0%nat book_world one_row_book
           [Some (201#2)%Q] [Some (100#1)%Q]); reflexivity.
Defined.

(** ** The sample panels *)

Lemma length_head_rows (n : nat) (len : nat) (l : Series) :
  (length (take (slice_len len (Z.of_nat n)) l) <= n)%nat.
Proof.
  rewrite length_take. unfold slice_len.
  replace (0 <=? Z.of_nat n) with true by (symmetry; apply Z.leb_le; lia).
  rewrite Nat2Z.id. lia.
Qed.

(** Settles the events of a leaf one by one. *)
Ltac sample_bound :=
  lazymatch goal with
  | |- (length (take (slice_len _ 1000%Z) _) <= _)%nat => apply (length_head_rows 1000)
  | |- (length (take (slice_len _ 500%Z) _) <= _)%nat => apply (length_head_rows 500)
  | |- (length (map _ (take _ _)) <= _)%nat =>
      rewrite length_map, length_take; apply Nat.le_min_l
  end.

Ltac sample_leaf :=
  eexists; split; [cbn [out logged]; rewrite <- ?app_assoc; reflexivity|];
  cbn [app];
  repeat apply Forall_cons_2; try apply Forall_nil_2;
  cbn [within_sample];
  lazymatch goal with
  | |- True => exact I
  | |- (_ /\ _) => split; sample_bound
  end.

(** Whatever the size of the tables, the sample panels stay small: the price
    evolution of the book shows at most 1000 rows, its mean spread at most 20
    time buckets, and the trades in time at most 500 trades. *)
Theorem sample_panels_bounded (L : PyLib) (lb lt : loc) (w : World)
    (book trade : DataFrame) :
  heap w !! lb = Some book ->
  heap w !! lt = Some trade ->
  (exists evs,
     out (after (plot_book_analysis L (Some lb)) w) = out w ++ evs
     /\ Forall within_sample evs)
  /\ (exists evs,
        out (after (plot_trade_analysis L (Some lt)) w) = out w ++ evs
        /\ Forall within_sample evs).
Proof.
  intros Hb Ht. split.
  - change (post (plot_book_analysis L (Some lb)) w
              (fun _ w' => exists evs, out w' = out w ++ evs
                                       /\ Forall within_sample evs)).
    unfold plot_book_analysis. repeat wp_step; sample_leaf.
  - change (post (plot_trade_analysis L (Some lt)) w
              (fun _ w' => exists evs, out w' = out w ++ evs
                                       /\ Forall within_sample evs)).
    unfold plot_trade_analysis. repeat wp_step; sample_leaf.
Qed.

Lemma sample_panels_bounded_witness :
  (exists evs,
     out (after (plot_book_analysis plain_lib (Some 0%nat)) market_world)
     = out market_world ++ evs
     /\ Forall within_sample evs)
  /\ (exists evs,
        out (after (plot_trade_analysis plain_lib (Some 1%nat)) market_world)
        = out market_world ++ evs
        /\ Forall within_sample evs).
Proof.
  apply (sample_panels_bounded plain_lib 0%nat 1%nat market_world one_row_book
           one_trade); reflexivity.
Defined.

End VisualizerMore.
